(** * GOD token AI verifier

    A shallow embedding of [src/ai-verifier/god_ai_verifier.py]: the class
    [GodAIVerifier], its method [verify_metal_properties] with the
    [try]/[except Exception] block, the history accessors and the JSON
    log, followed by the properties of the natural-language specification.

    Python floats are IEEE 754 binary64 numbers, so they are Rocq's primitive
    floats; Python integers are [Z]; Python dictionaries keep their insertion
    order and are association lists. *)

From Stdlib Require Import ZArith String Ascii List Bool Floats DecimalString Lia.
Import ListNotations.

Set Warnings "-inexact-float,-register-all".
Local Open Scope string_scope.

(** ** Python values, exceptions and the operators the verifier uses *)

(** The values that flow through the verifier: numbers, strings, lists and
    string-keyed dictionaries (what [json] can write and read back). *)
Inductive pyval : Type :=
| VNone
| VBool (b : bool)
| VInt (n : Z)
| VFloat (x : float)
| VStr (s : string)
| VList (items : list pyval)
| VDict (entries : list (string * pyval)).

Definition dict := list (string * pyval).

(** A raised exception: its class name, whether that class derives from
    [Exception] (what [except Exception] tests; [KeyboardInterrupt] and
    [SystemExit] do not), and [str(e)]. *)
Record PyExc : Type := mkExc {
  exc_class : string;
  exc_is_Exception : bool;
  exc_str : string
}.

Inductive outcome (A : Type) : Type :=
| Ok (a : A)
| Raise (e : PyExc).
Arguments Ok {A} a.
Arguments Raise {A} e.

Definition obind {A B} (m : outcome A) (k : A -> outcome B) : outcome B :=
  match m with
  | Ok a => k a
  | Raise e => Raise e
  end.

Definition squote : string := "'".
Definition dquote : string := String (ascii_of_nat 34) EmptyString.

Definition KeyError (key : string) : PyExc :=
  mkExc "KeyError" true (squote ++ key ++ squote).
Definition TypeError (msg : string) : PyExc := mkExc "TypeError" true msg.
Definition AttributeError (msg : string) : PyExc := mkExc "AttributeError" true msg.
Definition OverflowError (msg : string) : PyExc := mkExc "OverflowError" true msg.
Definition ZeroDivisionError (msg : string) : PyExc := mkExc "ZeroDivisionError" true msg.
Definition ValueError (msg : string) : PyExc := mkExc "ValueError" true msg.
Definition NameError (name : string) : PyExc :=
  mkExc "NameError" true ("name " ++ squote ++ name ++ squote ++ " is not defined").

(** [type(v).__name__] *)
Definition py_type_name (v : pyval) : string :=
  match v with
  | VNone => "NoneType"
  | VBool _ => "bool"
  | VInt _ => "int"
  | VFloat _ => "float"
  | VStr _ => "str"
  | VList _ => "list"
  | VDict _ => "dict"
  end.

Definition unsupported (op : string) (l r : string) : PyExc :=
  TypeError ("unsupported operand type(s) for " ++ op ++ ": "
             ++ squote ++ l ++ squote ++ " and " ++ squote ++ r ++ squote).

(** *** Dictionaries *)

Fixpoint dict_get (k : string) (d : dict) : option pyval :=
  match d with
  | [] => None
  | (k', v) :: rest => if String.eqb k k' then Some v else dict_get k rest
  end.

(** [d[k] = v]: an existing key keeps its place, a new one goes last. *)
Fixpoint dict_set (k : string) (v : pyval) (d : dict) : dict :=
  match d with
  | [] => [(k, v)]
  | (k', v') :: rest =>
      if String.eqb k k' then (k', v) :: rest else (k', v') :: dict_set k v rest
  end.

(** [v[key]] for a string key. *)
Definition py_getitem (v : pyval) (key : string) : outcome pyval :=
  match v with
  | VDict d =>
      match dict_get key d with
      | Some x => Ok x
      | None => Raise (KeyError key)
      end
  | VList _ => Raise (TypeError "list indices must be integers or slices, not str")
  | VStr _ => Raise (TypeError "string indices must be integers, not 'str'")
  | _ => Raise (TypeError (squote ++ py_type_name v ++ squote ++ " object is not subscriptable"))
  end.

(** *** Numbers *)

(** [float(n)] for an integer: rounded to nearest even, [OverflowError] past
    the largest finite double. *)
Definition float_of_int (n : Z) : outcome float :=
  let x := SF2Prim (binary_normalize prec emax n 0%Z false) in
  if PrimFloat.is_infinity x
  then Raise (OverflowError "int too large to convert to float")
  else Ok x.

(** [bool] is a subclass of [int]. *)
Definition as_int (v : pyval) : option Z :=
  match v with
  | VInt n => Some n
  | VBool b => Some (if b then 1%Z else 0%Z)
  | _ => None
  end.

(** The left operand of [v op y] where [y] is a float: a float is taken as
    it is, an integer is converted, anything else is a [TypeError]. *)
Definition float_operand (op : string) (v : pyval) : outcome float :=
  match v with
  | VFloat x => Ok x
  | VInt n => float_of_int n
  | VBool b => Ok (if b then 1%float else 0%float)
  | _ => Raise (unsupported op (py_type_name v) "float")
  end.

(** [v - y] *)
Definition py_sub_float (v : pyval) (y : float) : outcome float :=
  obind (float_operand "-" v) (fun x => Ok (x - y)%float).

(** [v / y] *)
Definition py_truediv_float (v : pyval) (y : float) : outcome float :=
  obind (float_operand "/" v) (fun x =>
    if (y =? 0)%float then Raise (ZeroDivisionError "float division by zero")
    else Ok (x / y)%float).

(** [v * y] *)
Definition py_mul_float (v : pyval) (y : float) : outcome float :=
  match v with
  | VStr _ | VList _ =>
      Raise (TypeError "can't multiply sequence by non-int of type 'float'")
  | _ => obind (float_operand "*" v) (fun x => Ok (x * y)%float)
  end.

Definition cannot_concatenate (seq : string) (other : pyval) : PyExc :=
  TypeError ("can only concatenate " ++ seq ++ " (not " ++ dquote
             ++ py_type_name other ++ dquote ++ ") to " ++ seq).

(** [a + b] *)
Definition py_add (a b : pyval) : outcome pyval :=
  match a, b with
  | VFloat x, VFloat y => Ok (VFloat (x + y))
  | VStr s, VStr t => Ok (VStr (s ++ t))
  | VStr _, _ => Raise (cannot_concatenate "str" b)
  | VList l, VList m => Ok (VList (l ++ m))
  | VList _, _ => Raise (cannot_concatenate "list" b)
  | _, _ =>
      match as_int a, as_int b, a, b with
      | Some m, Some n, _, _ => Ok (VInt (m + n))
      | Some m, None, _, VFloat y =>
          obind (float_of_int m) (fun x => Ok (VFloat (x + y)))
      | None, Some n, VFloat x, _ =>
          obind (float_of_int n) (fun y => Ok (VFloat (x + y)))
      | _, _, _, _ => Raise (unsupported "+" (py_type_name a) (py_type_name b))
      end
  end.

(** The decimal text of an integer. *)
Definition int_text (n : Z) : string := NilZero.string_of_int (Z.to_int n).

(** The number of decimal digits of an integer, its sign apart. *)
Definition decimal_digits (n : Z) : nat := String.length (int_text (Z.abs n)).

(** [sys.get_int_max_str_digits()], at its default: the most decimal
    digits an integer may have when it is converted to a string, or a
    string when it is converted to an integer. *)
Definition int_max_str_digits : Z := 4300.

Definition within_int_max_str_digits (n : Z) : bool :=
  (Z.of_nat (decimal_digits n) <=? int_max_str_digits)%Z.

Definition int_limit_error : PyExc :=
  ValueError ("Exceeds the limit (4300 digits) for integer string conversion; "
              ++ "use sys.set_int_max_str_digits() to increase the limit").

(** [str(n)] for an integer, which is also [repr(n)]: the conversion is
    refused for an integer with more digits than the limit. *)
Definition py_str_int (n : Z) : outcome string :=
  if within_int_max_str_digits n then Ok (int_text n) else Raise int_limit_error.

Arguments within_int_max_str_digits : simpl never.
Arguments py_str_int : simpl never.

(** Whether [v] holds, at any depth, an integer beyond the limit: [repr] of
    a list or of a dictionary converts every integer inside it. *)
Fixpoint long_int_inside (v : pyval) : bool :=
  match v with
  | VInt n => negb (within_int_max_str_digits n)
  | VList items => existsb long_int_inside items
  | VDict entries => existsb (fun kv => long_int_inside (snd kv)) entries
  | _ => false
  end.

(** [bool(v)], as [if v:] tests it. *)
Definition py_truthy (v : pyval) : bool :=
  match v with
  | VNone => false
  | VBool b => b
  | VInt n => negb (n =? 0)%Z
  | VFloat x => negb (x =? 0)%float
  | VStr s => negb (s =? "")
  | VList l => match l with [] => false | _ => true end
  | VDict d => match d with [] => false | _ => true end
  end.

(** ** A state monad with exceptions

    A computation runs on a state [S] and either returns or raises; the
    state it leaves behind is kept in both cases, as a [try] block leaves
    the objects it has mutated. *)

Definition M (S A : Type) : Type := S -> outcome A * S.

Definition ret {S A} (a : A) : M S A := fun s => (Ok a, s).

Definition bind {S A B} (m : M S A) (k : A -> M S B) : M S B :=
  fun s =>
    match m s with
    | (Ok a, s') => k a s'
    | (Raise e, s') => (Raise e, s')
    end.

Definition lift {S A} (o : outcome A) : M S A := fun s => (o, s).

Declare Scope py_scope.
Delimit Scope py_scope with py.
Notation "x <- m ;; k" := (bind m (fun x => k))
  (at level 61, m at next level, right associativity) : py_scope.
Notation "m ;; k" := (bind m (fun _ => k))
  (at level 61, right associativity) : py_scope.


(** ** SHA-256 ([hashlib.sha256(...).hexdigest()])

    FIPS 180-4 over 32-bit words held in [Z]; a string stands for its
    UTF-8 bytes. *)

Module SHA256.
Local Open Scope Z_scope.

Definition w32 (x : Z) : Z := x mod 2 ^ 32.
Definition add32 (x y : Z) : Z := w32 (x + y).
Definition rotr (n x : Z) : Z := Z.lor (Z.shiftr x n) (w32 (Z.shiftl x (32 - n))).
Definition shr (n x : Z) : Z := Z.shiftr x n.
Definition not32 (x : Z) : Z := Z.lxor x 0xffffffff.

Definition Ch (x y z : Z) : Z := Z.lxor (Z.land x y) (Z.land (not32 x) z).
Definition Maj (x y z : Z) : Z :=
  Z.lxor (Z.lxor (Z.land x y) (Z.land x z)) (Z.land y z).
Definition Sigma0 (x : Z) : Z := Z.lxor (Z.lxor (rotr 2 x) (rotr 13 x)) (rotr 22 x).
Definition Sigma1 (x : Z) : Z := Z.lxor (Z.lxor (rotr 6 x) (rotr 11 x)) (rotr 25 x).
Definition sigma0 (x : Z) : Z := Z.lxor (Z.lxor (rotr 7 x) (rotr 18 x)) (shr 3 x).
Definition sigma1 (x : Z) : Z := Z.lxor (Z.lxor (rotr 17 x) (rotr 19 x)) (shr 10 x).

(** The constants come from their definition: the first 32 bits of the
    fractional parts of the cube roots (for [K]) and of the square roots (for
    the initial hash value) of the first primes. *)
Definition is_prime (n : Z) : bool :=
  forallb (fun d => negb (n mod d =? 0)) (map Z.of_nat (seq 2 (Z.to_nat n - 2))).

Definition primes : list Z := filter is_prime (map Z.of_nat (seq 2 310)).

(** The integer part of the [k]-th root of [n], one bit at a time. *)
Fixpoint iroot (k : Z) (n : Z) (bits : nat) (acc : Z) : Z :=
  match bits with
  | O => acc
  | S b =>
      let candidate := acc + 2 ^ Z.of_nat b in
      if candidate ^ k <=? n then iroot k n b candidate else iroot k n b acc
  end.

Definition root_fraction (k : Z) (p : Z) : Z :=
  w32 (iroot k (p * 2 ^ (32 * k)) 40 0).

Definition K : list Z := map (root_fraction 3) primes.

(** The eight working words. *)
Record state : Type := mkState {
  sa : Z; sb : Z; sc : Z; sd : Z; se : Z; sf : Z; sg : Z; sh : Z
}.

Definition H0 : state :=
  match map (root_fraction 2) (firstn 8 primes) with
  | [a; b; c; d; e; f; g; h] => mkState a b c d e f g h
  | _ => mkState 0 0 0 0 0 0 0 0
  end.

Definition bytes_of_string (s : string) : list Z :=
  map (fun c => Z.of_N (N_of_ascii c)) (list_ascii_of_string s).

(** The message, a 1 bit, zeros up to 56 modulo 64 bytes, then the bit
    length on eight bytes, most significant first. *)
Definition be_bytes (count : nat) (x : Z) : list Z :=
  map (fun i => Z.shiftr x (8 * Z.of_nat (count - 1 - i)) mod 256) (seq 0 count).

Definition pad (msg : list Z) : list Z :=
  let len := Z.of_nat (length msg) in
  let zeros := Z.to_nat ((55 - len) mod 64) in
  msg ++ [0x80] ++ repeat 0 zeros ++ be_bytes 8 (8 * len).

Fixpoint be_words (count : nat) (bytes : list Z) : list Z :=
  match count, bytes with
  | S c, b0 :: b1 :: b2 :: b3 :: rest =>
      (((b0 * 256 + b1) * 256 + b2) * 256 + b3) :: be_words c rest
  | _, _ => []
  end.

(** The message schedule, most recent word first while it is built. *)
Fixpoint extend (steps : nat) (rev_w : list Z) : list Z :=
  match steps with
  | O => rev_w
  | S n =>
      let w := add32 (add32 (sigma1 (nth 1 rev_w 0)) (nth 6 rev_w 0))
                     (add32 (sigma0 (nth 14 rev_w 0)) (nth 15 rev_w 0)) in
      extend n (w :: rev_w)
  end.

Definition schedule (block : list Z) : list Z :=
  rev (extend 48 (rev (be_words 16 block))).

Definition round (s : state) (kw : Z * Z) : state :=
  let t1 := add32 (add32 (add32 (sh s) (Sigma1 (se s))) (Ch (se s) (sf s) (sg s)))
                  (add32 (fst kw) (snd kw)) in
  let t2 := add32 (Sigma0 (sa s)) (Maj (sa s) (sb s) (sc s)) in
  mkState (add32 t1 t2) (sa s) (sb s) (sc s) (add32 (sd s) t1) (se s) (sf s) (sg s).

Definition compress (h : state) (block : list Z) : state :=
  let s := fold_left round (combine K (schedule block)) h in
  mkState (add32 (sa h) (sa s)) (add32 (sb h) (sb s)) (add32 (sc h) (sc s))
          (add32 (sd h) (sd s)) (add32 (se h) (se s)) (add32 (sf h) (sf s))
          (add32 (sg h) (sg s)) (add32 (sh h) (sh s)).

Fixpoint blocks (count : nat) (bytes : list Z) : list (list Z) :=
  match count with
  | O => []
  | S n => firstn 64 bytes :: blocks n (skipn 64 bytes)
  end.

Definition digest (msg : list Z) : state :=
  let padded := pad msg in
  fold_left compress (blocks (length padded / 64) padded) H0.

Definition hex_digit (n : Z) : ascii :=
  match n with
  | 0 => "0" | 1 => "1" | 2 => "2" | 3 => "3" | 4 => "4" | 5 => "5"
  | 6 => "6" | 7 => "7" | 8 => "8" | 9 => "9" | 10 => "a" | 11 => "b"
  | 12 => "c" | 13 => "d" | 14 => "e" | _ => "f"
  end%char.

Definition nibble (x : Z) (i : Z) : ascii := hex_digit (Z.shiftr x (4 * i) mod 16).

Definition hex_word (x : Z) (tail : string) : string :=
  String (nibble x 7) (String (nibble x 6) (String (nibble x 5) (String (nibble x 4)
  (String (nibble x 3) (String (nibble x 2) (String (nibble x 1) (String (nibble x 0)
  tail))))))).

Definition hex_state (s : state) : string :=
  hex_word (sa s) (hex_word (sb s) (hex_word (sc s) (hex_word (sd s)
  (hex_word (se s) (hex_word (sf s) (hex_word (sg s) (hex_word (sh s) ""%string))))))).

(** [hashlib.sha256(s.encode()).hexdigest()] *)
Definition hexdigest (s : string) : string := hex_state (digest (bytes_of_string s)).

End SHA256.

(** ** The NOVA-BLOCKS interface

    [nova_blocks] is a third-party package that is not part of the
    repository; its objects are taken as they are used: a call either
    returns a value or raises. *)

(** A one-dimensional [numpy] array of floats. *)
Definition ndarray : Type := list float.

(** [a.tolist()] *)
Definition tolist (a : ndarray) : pyval := VList (map VFloat a).

Record BlackwellMaterialAnalyzer : Type := {
  analyze_material_properties : ndarray -> outcome pyval
}.

Inductive BlackwellQuantumSimulator : Type := QuantumSimulator.

Record AIEmbeddedGoldInterface : Type := {
  connect : outcome bool;
  quantum_initialize : outcome bool;
  quantum_compute : pyval -> outcome pyval
}.

(** The three constructors [_initialize_nova_interface] calls. *)
Record NovaBlocks : Type := {
  new_AIEmbeddedGoldInterface : pyval -> outcome AIEmbeddedGoldInterface;
  new_BlackwellQuantumSimulator : outcome BlackwellQuantumSimulator;
  new_BlackwellMaterialAnalyzer : outcome BlackwellMaterialAnalyzer
}.

(** What the program does to the outside: the lines it prints and the
    calls it makes into the library, oldest first. *)
Inductive NovaCall : Type :=
| AnalyzeCall (sensor_data : ndarray)
| QuantumCall (quantum_input : pyval).

Record World : Type := mkWorld {
  stdout : list string;
  nova_calls : list NovaCall
}.

Definition print_line (line : string) (w : World) : World :=
  mkWorld (stdout w ++ [line]) (nova_calls w).

Definition log_call (c : NovaCall) (w : World) : World :=
  mkWorld (stdout w) (nova_calls w ++ [c]).

(** ** class GodAIVerifier *)

Record GodAIVerifier : Type := mkVerifier {
  connection_params : pyval;
  interface : option AIEmbeddedGoldInterface;
  quantum_simulator : option BlackwellQuantumSimulator;
  material_analyzer : option BlackwellMaterialAnalyzer;
  verification_history : pyval
}.

Definition set_interface (i : AIEmbeddedGoldInterface) (self : GodAIVerifier) :=
  mkVerifier (connection_params self) (Some i) (quantum_simulator self)
             (material_analyzer self) (verification_history self).
Definition set_quantum_simulator (q : BlackwellQuantumSimulator) (self : GodAIVerifier) :=
  mkVerifier (connection_params self) (interface self) (Some q)
             (material_analyzer self) (verification_history self).
Definition set_material_analyzer (a : BlackwellMaterialAnalyzer) (self : GodAIVerifier) :=
  mkVerifier (connection_params self) (interface self) (quantum_simulator self)
             (Some a) (verification_history self).
Definition set_verification_history (h : pyval) (self : GodAIVerifier) :=
  mkVerifier (connection_params self) (interface self) (quantum_simulator self)
             (material_analyzer self) h.

Local Open Scope py_scope.

(** *** The module body

    The two optional imports and the [class] statement. An import returns
    the package, fails with an [ImportError] (which the module catches), or
    raises something else (which it does not). *)

Inductive import_outcome (A : Type) : Type :=
| Imported (package : A)
| ImportFails (e : PyExc)
| ImportRaises (e : PyExc).
Arguments Imported {A} package.
Arguments ImportFails {A} e.
Arguments ImportRaises {A} e.

(** The two flags the module leaves in its namespace; [NOVA_AVAILABLE] is
    kept with the imported package. *)
Record Globals : Type := mkGlobals {
  global_NOVA_AVAILABLE : option NovaBlocks;
  global_NUMPY_AVAILABLE : bool
}.

(** The [try] statement around the NOVA-BLOCKS import. *)
Definition import_nova_blocks (nova_blocks : import_outcome NovaBlocks)
  : M World (option NovaBlocks) :=
  match nova_blocks with
  | Imported package => ret (Some package)
  | ImportFails _ =>
      fun w =>
        (Ok None, print_line "Warning: NOVA-BLOCKS not available, using mock verification" w)
  | ImportRaises e => lift (Raise e)
  end.

(** The [try] statement around [import numpy as np]: whether the name [np]
    is bound afterwards. *)
Definition import_numpy (numpy : import_outcome unit) : M World bool :=
  match numpy with
  | Imported _ => ret true
  | ImportFails _ => ret false
  | ImportRaises e => lift (Raise e)
  end.

(** The [class] statement. Its body defines [verify_metal_properties],
    whose parameter [sensor_data] is annotated [Optional[np.ndarray]]: where
    annotations are evaluated when the [def] statement runs
    ([deferred_annotations] is [false], every Python before 3.14), the name
    [np] must be bound. *)
Definition class_GodAIVerifier (deferred_annotations np_bound : bool) : M World unit :=
  if deferred_annotations || np_bound then ret tt else lift (Raise (NameError "np")).

(** Running the module up to the end of the [class] statement. *)
Definition module_body (deferred_annotations : bool)
    (nova_blocks : import_outcome NovaBlocks) (numpy : import_outcome unit)
  : M World Globals :=
  NOVA_AVAILABLE <- import_nova_blocks nova_blocks ;;
  NUMPY_AVAILABLE <- import_numpy numpy ;;
  class_GodAIVerifier deferred_annotations NUMPY_AVAILABLE ;;
  ret (mkGlobals NOVA_AVAILABLE NUMPY_AVAILABLE).

(** *** __init__ and _initialize_nova_interface *)

Definition Init : Type := GodAIVerifier * World.

Definition init_print (line : string) : M Init unit :=
  fun s => (Ok tt, (fst s, print_line line (snd s))).

Definition init_update (f : GodAIVerifier -> GodAIVerifier) : M Init unit :=
  fun s => (Ok tt, (f (fst s), snd s)).

Definition _initialize_nova_interface (nova : NovaBlocks) : M Init unit :=
  fun s0 =>
    let body : M Init unit :=
      i <- lift (new_AIEmbeddedGoldInterface nova (connection_params (fst s0))) ;;
      init_update (set_interface i) ;;
      q <- lift (new_BlackwellQuantumSimulator nova) ;;
      init_update (set_quantum_simulator q) ;;
      a <- lift (new_BlackwellMaterialAnalyzer nova) ;;
      init_update (set_material_analyzer a) ;;
      connected <- lift (connect i) ;;
      if connected : bool then
        initialized <- lift (quantum_initialize i) ;;
        if initialized : bool
        then init_print "NOVA-BLOCKS AI interface initialized successfully"
        else init_print "Warning: Quantum features not initialized"
      else init_print "Warning: Could not connect to AI-embedded gold interface" in
    match body s0 with
    | (Raise e, s) =>
        if exc_is_Exception e
        then init_print ("Error initializing NOVA interface: " ++ exc_str e) s
        else (Raise e, s)
    | done => done
    end.

(** [GodAIVerifier(connection_params)]; [NOVA_AVAILABLE] is [Some] of the
    package when its import succeeded. *)
Definition GodAIVerifier_init (NOVA_AVAILABLE : option NovaBlocks)
    (connection_params : pyval) (w : World) : outcome unit * Init :=
  let self := mkVerifier connection_params None None None (VList []) in
  match NOVA_AVAILABLE with
  | Some nova => _initialize_nova_interface nova (self, w)
  | None =>
      init_print "Using mock AI verification (NOVA-BLOCKS not available)" (self, w)
  end.

(** *** verify_metal_properties *)

(** The objects the [try] block works on: the local dictionary
    [verification_result], [self.verification_history], and the world. *)
Record Frame : Type := mkFrame {
  verification_result : dict;
  history : pyval;
  world : World
}.

(** [verification_result[key] = v] *)
Definition set_result (key : string) (v : pyval) : M Frame unit :=
  fun fr => (Ok tt, mkFrame (dict_set key v (verification_result fr)) (history fr) (world fr)).

(** [verification_result[key]] *)
Definition get_result (key : string) : M Frame pyval :=
  fun fr => (py_getitem (VDict (verification_result fr)) key, fr).

(** [self.material_analyzer.analyze_material_properties(sensor_data)] *)
Definition call_analyze (analyzer : BlackwellMaterialAnalyzer) (sensor_data : ndarray)
  : M Frame pyval :=
  fun fr =>
    (analyze_material_properties analyzer sensor_data,
     mkFrame (verification_result fr) (history fr)
             (log_call (AnalyzeCall sensor_data) (world fr))).

(** [self.interface.quantum_compute(quantum_input)]; an interface that is
    still [None] has no such attribute. *)
Definition call_quantum_compute (iface : option AIEmbeddedGoldInterface)
    (quantum_input : pyval) : M Frame pyval :=
  match iface with
  | None =>
      lift (Raise (AttributeError "'NoneType' object has no attribute 'quantum_compute'"))
  | Some i =>
      fun fr =>
        (quantum_compute i quantum_input,
         mkFrame (verification_result fr) (history fr)
                 (log_call (QuantumCall quantum_input) (world fr)))
  end.

(** [self.verification_history.append(verification_result)]: only a list
    has [append]. *)
Definition history_append : M Frame unit :=
  fun fr =>
    match history fr with
    | VList entries =>
        (Ok tt, mkFrame (verification_result fr)
                        (VList (entries ++ [VDict (verification_result fr)]))
                        (world fr))
    | other =>
        (Raise (AttributeError (squote ++ py_type_name other ++ squote
                                ++ " object has no attribute 'append'")), fr)
    end.

(** [rng.random((n,))]: the next [n] draws of the generator. *)
Definition rng_random (rng : nat -> float) (n : nat) : ndarray := map rng (seq 0 n).

Section Verifier.

(** Whether [import numpy] succeeded. *)
Variable NUMPY_AVAILABLE : bool.

(** The text of [repr(v)], which is also [str(v)] for everything but a
    string, when the conversion is not refused. *)
Variable py_repr : pyval -> string.

(** [str(v)], as an f-string field formats [v]. *)
Definition py_str (v : pyval) : outcome string :=
  match v with
  | VStr s => Ok s
  | VInt n => py_str_int n
  | VNone | VBool _ | VFloat _ => Ok (py_repr v)
  | VList _ | VDict _ =>
      if long_int_inside v then Raise int_limit_error else Ok (py_repr v)
  end.

Definition initial_result (metal_type : Z) (weight purity : float) (timestamp : string)
  : dict :=
  [ ("verified", VBool false);
    ("confidence", VFloat 0.0);
    ("metal_type", VInt metal_type);
    ("weight", VFloat weight);
    ("purity", VFloat purity);
    ("verification_id", VStr "");
    ("timestamp", VStr timestamp);
    ("ai_analysis", VDict []);
    ("quantum_verification", VDict []);
    ("blockchain_ready", VBool false) ].

(** Generate sensor data if not provided. *)
Definition generate_sensor_data (rng : nat -> float) (sensor_data : option ndarray)
  : option ndarray :=
  match sensor_data with
  | None => if NUMPY_AVAILABLE then Some (rng_random rng 256) else None
  | Some data => Some data
  end.

(** Check if analysis matches expected properties: the values of
    [density_match] and [purity_match]. *)
Definition density_purity_match (analysis : pyval) (metal_type : Z) (purity : float)
  : outcome (bool * bool) :=
  let expected_density := if (metal_type =? 1)%Z then 19.3%float else 10.5%float in
  obind (py_getitem analysis "density") (fun density =>
  obind (py_sub_float density expected_density) (fun density_diff =>
  let density_match := (abs density_diff <? 1.0)%float in
  obind (py_getitem analysis "purity") (fun measured =>
  obind (py_sub_float measured purity) (fun purity_diff =>
  let purity_match := (abs purity_diff <? 0.05)%float in
  Ok (density_match, purity_match))))).

(** AI Material Analysis. [density_match] and [purity_match] are computed
    and not used afterwards, as in the source. An analyzer object is true
    in a condition ([None] is not). *)
Definition ai_material_analysis (self : GodAIVerifier) (metal_type : Z) (purity : float)
    (sensor_data : option ndarray) : M Frame unit :=
  match material_analyzer self, sensor_data with
  | Some analyzer, Some data =>
      analysis <- call_analyze analyzer data ;;
      set_result "ai_analysis" analysis ;;
      matches <- lift (density_purity_match analysis metal_type purity) ;;
      let density_match := fst matches in
      let purity_match := snd matches in
      efficiency <- lift (py_getitem analysis "ai_embedded_efficiency") ;;
      stability <- lift (py_getitem analysis "thermal_stability") ;;
      sum2 <- lift (py_add efficiency stability) ;;
      strength <- lift (py_getitem analysis "neural_interface_strength") ;;
      sum3 <- lift (py_add sum2 strength) ;;
      ai_confidence <- lift (py_truediv_float sum3 3.0) ;;
      set_result "ai_confidence" (VFloat ai_confidence)
  | _, _ =>
      let density_match := true in
      let purity_match := true in
      set_result "ai_analysis"
        (VDict [ ("conductivity", VFloat 0.9);
                 ("density", VFloat (if (metal_type =? 1)%Z then 19.3 else 10.5));
                 ("purity", VFloat purity);
                 ("ai_embedded_efficiency", VFloat 0.85) ]) ;;
      set_result "ai_confidence" (VFloat 0.85)
  end.

(** Quantum Verification. *)
Definition quantum_verification (self : GodAIVerifier) (metal_type : Z)
    (weight purity : float) (sensor_data : option ndarray) : M Frame unit :=
  match quantum_simulator self with
  | Some _ =>
      let quantum_input :=
        VDict [ ("state", match sensor_data with
                          | Some data => tolist data
                          | None => VList (repeat (VFloat 0.5) 1024)
                          end);
                ("metal_type", VInt metal_type);
                ("weight", VFloat weight);
                ("purity", VFloat purity) ] in
      quantum_result <- call_quantum_compute (interface self) quantum_input ;;
      set_result "quantum_verification" quantum_result ;;
      result <- lift (py_getitem quantum_result "result") ;;
      quantum_stability <- lift (py_getitem result "stability") ;;
      set_result "quantum_confidence" quantum_stability
  | None =>
      set_result "quantum_verification"
        (VDict [ ("result", VDict [ ("stability", VFloat 0.9);
                                    ("entanglement_measure", VFloat 0.8) ]);
                 ("blackwell_accelerated", VBool false) ]) ;;
      set_result "quantum_confidence" (VFloat 0.9)
  end.

(** Overall verification decision. *)
Definition overall_decision (metal_type : Z) (weight purity : float) : M Frame unit :=
  let ai_weight := 0.6%float in
  let quantum_weight := 0.4%float in
  ai_confidence <- get_result "ai_confidence" ;;
  ai_part <- lift (py_mul_float ai_confidence ai_weight) ;;
  quantum_confidence <- get_result "quantum_confidence" ;;
  quantum_part <- lift (py_mul_float quantum_confidence quantum_weight) ;;
  let overall_confidence := (ai_part + quantum_part)%float in
  set_result "confidence" (VFloat overall_confidence) ;;
  set_result "verified" (VBool (0.8 <? overall_confidence)%float) ;;
  verified <- get_result "verified" ;;
  if py_truthy verified then
    metal_type_text <- lift (py_str (VInt metal_type)) ;;
    weight_text <- lift (py_str (VFloat weight)) ;;
    purity_text <- lift (py_str (VFloat purity)) ;;
    timestamp <- get_result "timestamp" ;;
    timestamp_text <- lift (py_str timestamp) ;;
    let data_to_hash := metal_type_text ++ weight_text ++ purity_text ++ timestamp_text in
    set_result "verification_id" (VStr (SHA256.hexdigest data_to_hash)) ;;
    set_result "blockchain_ready" (VBool true)
  else ret tt.

(** The body of the [try] statement. *)
Definition try_body (self : GodAIVerifier) (rng : nat -> float) (metal_type : Z)
    (weight purity : float) (sensor_data : option ndarray) : M Frame unit :=
  let sensor_data := generate_sensor_data rng sensor_data in
  ai_material_analysis self metal_type purity sensor_data ;;
  quantum_verification self metal_type weight purity sensor_data ;;
  overall_decision metal_type weight purity ;;
  history_append.

(** [self.verify_metal_properties(metal_type, weight, purity, sensor_data)].
    [timestamp] is what [datetime.utcnow().isoformat()] returns at the call
    and [rng] the stream of [np.random.default_rng()]. The result is the
    returned dictionary, or the exception that leaves the method, together
    with [self] and the world as the call leaves them. *)
Definition verify_metal_properties (self : GodAIVerifier) (timestamp : string)
    (rng : nat -> float) (metal_type : Z) (weight purity : float)
    (sensor_data : option ndarray) (w : World)
  : outcome pyval * GodAIVerifier * World :=
  let frame :=
    mkFrame (initial_result metal_type weight purity timestamp)
            (verification_history self) w in
  match try_body self rng metal_type weight purity sensor_data frame with
  | (Ok _, fr) =>
      (Ok (VDict (verification_result fr)),
       set_verification_history (history fr) self, world fr)
  | (Raise e, fr) =>
      if exc_is_Exception e then
        (Ok (VDict (dict_set "error" (VStr (exc_str e)) (verification_result fr))),
         set_verification_history (history fr) self,
         print_line ("Verification error: " ++ exc_str e) (world fr))
      else
        (Raise e, set_verification_history (history fr) self, world fr)
  end.

End Verifier.

(** [self.get_verification_history()] *)
Definition get_verification_history (self : GodAIVerifier) : pyval :=
  verification_history self.

(** ** The verification log

    A file holds the JSON document [json.dump] wrote into it, or some other
    text. Every [pyval] is serializable, and [json.load] gives back the
    document as it was dumped; the layout of the text ([indent=2]) is not
    modelled. [open(filename, 'w')] fails on a path the system refuses, and
    on the empty path always. *)












(** ** Observations on a call *)

(** [key in v] *)
Definition py_contains (key : string) (v : pyval) : bool :=
  match v with
  | VDict d => match dict_get key d with Some _ => true | None => false end
  | _ => false
  end.

(** The ['verified'] entry of what a call returns, or the exception that
    left the method. *)
Definition verified_field (run : outcome pyval * GodAIVerifier * World) : outcome pyval :=
  obind (fst (fst run)) (fun r => py_getitem r "verified").

(** A library call made with [data] as the sensor data: the analyzer
    receives the array itself, the quantum interface its list under
    ["state"]. *)
Definition sensor_data_in_use (data : ndarray) (c : NovaCall) : Prop :=
  match c with
  | AnalyzeCall sensor_data => sensor_data = data
  | QuantumCall quantum_input => py_getitem quantum_input "state" = Ok (tolist data)
  end.

(** The library calls made between [before] and [after] all ran on [data]:
    the analyzer, when the verifier has one, was called with it, and
    otherwise the quantum interface, when the verifier has a simulator and an
    interface. *)
Definition calls_use (data : ndarray) (self : GodAIVerifier) (before after : World)
  : Prop :=
  exists new,
    nova_calls after = (nova_calls before ++ new)%list
    /\ Forall (sensor_data_in_use data) new
    /\ (material_analyzer self <> None -> In (AnalyzeCall data) new)
    /\ (material_analyzer self = None ->
        quantum_simulator self <> None ->
        interface self <> None ->
        exists quantum_input, In (QuantumCall quantum_input) new).

(** The spec's words for the overall confidence:
    [0.6 * ai_confidence + 0.4 * quantum_confidence]. *)
Definition weighted_combination (ai_confidence quantum_confidence : pyval)
  : outcome float :=
  obind (float_operand "*" ai_confidence) (fun a =>
  obind (float_operand "*" quantum_confidence) (fun q =>
  Ok (0.6 * a + 0.4 * q)%float)).

(** ** Sample inputs *)

(** The call of [__main__]: 100 grams of gold, 99.9% pure. *)
Definition sample_params : pyval :=
  VDict [ ("port", VStr "COM3"); ("baudrate", VInt 115200);
          ("quantum_enabled", VBool true) ].

Definition sample_timestamp : string := "2026-11-03T12:00:00.000001".

Definition sample_rng : nat -> float := fun _ => 0.5%float.

Definition empty_world : World := mkWorld [] [].

(** [repr] on the two floats of the sample call. *)
Definition sample_repr (v : pyval) : string :=
  match v with
  | VFloat x => if (x =? 100.0)%float then "100.0" else "0.999"
  | _ => "None"
  end.

(** The verifier [__main__] builds when [nova_blocks] cannot be imported. *)
Definition mock_verifier : GodAIVerifier :=
  fst (snd (GodAIVerifier_init None sample_params empty_world)).

(** A NOVA-BLOCKS package whose analyzer is [analyze] and whose interface
    reports a quantum stability of 0.9. *)
Definition sample_interface : AIEmbeddedGoldInterface :=
  {| connect := Ok true;
     quantum_initialize := Ok true;
     quantum_compute := fun _ =>
       Ok (VDict [ ("result", VDict [ ("stability", VFloat 0.9) ]) ]) |}.

Definition sample_nova (analyze : ndarray -> outcome pyval) : NovaBlocks :=
  {| new_AIEmbeddedGoldInterface := fun _ => Ok sample_interface;
     new_BlackwellQuantumSimulator := Ok QuantumSimulator;
     new_BlackwellMaterialAnalyzer := Ok {| analyze_material_properties := analyze |} |}.

Definition nova_verifier (analyze : ndarray -> outcome pyval) : GodAIVerifier :=
  fst (snd (GodAIVerifier_init (Some (sample_nova analyze)) sample_params empty_world)).

(** An analysis of a gold sample; [density] is the reading under
    ["density"]. *)
Definition sample_analysis (density : pyval) : pyval :=
  VDict [ ("density", density);
          ("purity", VFloat 0.999);
          ("ai_embedded_efficiency", VFloat 0.9);
          ("thermal_stability", VFloat 0.9);
          ("neural_interface_strength", VFloat 0.9) ].

(** Ctrl-C while the analyzer runs. *)
Definition KeyboardInterrupt : PyExc := mkExc "KeyboardInterrupt" false "".


(** The sample call on the mock verifier, and what it leaves. *)
Definition sample_run : outcome pyval * GodAIVerifier * World :=
  verify_metal_properties true sample_repr mock_verifier sample_timestamp sample_rng
    1 100.0 0.999 None empty_world.

Definition sample_result : pyval :=
  match fst (fst sample_run) with
  | Ok r => r
  | Raise _ => VNone
  end.

Definition sample_verifier_after : GodAIVerifier := snd (fst sample_run).

(** A gold analysis with a float density, and the same one with no
    density reading. *)
Definition gold_analysis : pyval := sample_analysis (VFloat 19.3).
Definition silver_like_analysis : pyval := sample_analysis (VFloat 10.5).
Definition unread_analysis : pyval := sample_analysis VNone.

Definition sample_data : ndarray := [0.5%float; 0.25%float].

(** The sample call on a verifier whose analyzer returns [analysis]. *)
Definition nova_run (analyze : ndarray -> outcome pyval)
  : outcome pyval * GodAIVerifier * World :=
  verify_metal_properties true sample_repr (nova_verifier analyze) sample_timestamp
    sample_rng 1 100.0 0.999 (Some sample_data) empty_world.

(** The frame the [try] block of that call starts from. *)
Definition nova_frame (analyze : ndarray -> outcome pyval) : Frame :=
  mkFrame (initial_result 1 100.0 0.999 sample_timestamp)
          (verification_history (nova_verifier analyze)) empty_world.

(** The frame the [try] block of the call on the unread analysis leaves,
    and the exception that block raises. *)
Definition unread_frame : Frame :=
  snd (try_body true sample_repr (nova_verifier (fun _ => Ok unread_analysis))
         sample_rng 1 100.0 0.999 (Some sample_data)
         (nova_frame (fun _ => Ok unread_analysis))).

Definition unread_error : PyExc :=
  TypeError "unsupported operand type(s) for -: 'NoneType' and 'float'".

(** ** Vocabulary of the proofs *)

(** The dictionary of a call whose [try] block returned: [analysis] and
    [ai] are what the first phase stored, [qv] and [q] what the second
    stored, [conf] the overall confidence and [id] the identifier. *)
Definition completed_result (mt : Z) (w p : float) (ts : string) (analysis : pyval)
    (ai : float) (qv q : pyval) (conf : float) (id : string) : dict :=
  let verified := (0.8 <? conf)%float in
  [ ("verified", VBool verified);
    ("confidence", VFloat conf);
    ("metal_type", VInt mt);
    ("weight", VFloat w);
    ("purity", VFloat p);
    ("verification_id", VStr id);
    ("timestamp", VStr ts);
    ("ai_analysis", analysis);
    ("quantum_verification", qv);
    ("blockchain_ready", VBool verified);
    ("ai_confidence", VFloat ai);
    ("quantum_confidence", q) ].

(** [preserves I m]: whatever [m] does, returning or raising, the frame it
    leaves is related by [I] to the frame it started from. *)
Definition preserves {A} (I : Frame -> Frame -> Prop) (m : M Frame A) : Prop :=
  forall s o s', m s = (o, s') -> I s s'.

(** The entries the [try] block assigns. *)
Definition assigned_keys : list string :=
  [ "ai_analysis"; "ai_confidence"; "quantum_verification"; "quantum_confidence";
    "confidence"; "verified"; "verification_id"; "blockchain_ready" ].

Definition same_history (s s' : Frame) : Prop := history s' = history s.

Definition keeps (k : string) (s s' : Frame) : Prop :=
  dict_get k (verification_result s') = dict_get k (verification_result s).

Definition calls_extend (data : ndarray) (s s' : Frame) : Prop :=
  exists new,
    nova_calls (world s') = (nova_calls (world s) ++ new)%list
    /\ Forall (sensor_data_in_use data) new.

(** The identifier a decision leaves: the digest of the four formatted
    fields when the sample is verified, the initial empty string
    otherwise. *)
Definition minted_id (py_repr : pyval -> string) (mt : Z) (w p : float) (ts : string)
    (verified : bool) (id : string) : Prop :=
  if verified then
    exists metal_type_text weight_text purity_text,
      py_str py_repr (VInt mt) = Ok metal_type_text
      /\ py_str py_repr (VFloat w) = Ok weight_text
      /\ py_str py_repr (VFloat p) = Ok purity_text
      /\ id = SHA256.hexdigest (metal_type_text ++ weight_text ++ purity_text ++ ts)
  else id = "".

(** ** Further observations and sample inputs *)

(** The entries the two analysis phases assign, and those the decision
    assigns. *)
Definition analysis_keys : list string :=
  [ "ai_analysis"; "ai_confidence"; "quantum_verification"; "quantum_confidence" ].

Definition decision_keys : list string :=
  [ "confidence"; "verified"; "verification_id"; "blockchain_ready" ].

(** The keys of a dictionary, in order ([list(v)]). *)
Definition py_keys (v : pyval) : list string :=
  match v with
  | VDict d => map fst d
  | _ => []
  end.

Definition same_stdout (s s' : Frame) : Prop := stdout (world s') = stdout (world s).

(** A lowercase hexadecimal digit. *)
Definition is_hex_digit (c : ascii) : bool :=
  existsb (Ascii.eqb c) (list_ascii_of_string "0123456789abcdef").






(** An analysis without a density reading at all. *)
Definition no_density_analysis : pyval :=
  VDict [ ("purity", VFloat 0.999);
          ("ai_embedded_efficiency", VFloat 0.9);
          ("thermal_stability", VFloat 0.9);
          ("neural_interface_strength", VFloat 0.9) ].

(** A second sample call, on the verifier the first one left. *)
Definition second_run : outcome pyval * GodAIVerifier * World :=
  verify_metal_properties true sample_repr sample_verifier_after sample_timestamp
    sample_rng 2 100.0 0.999 None (snd sample_run).

Definition second_result : pyval :=
  match fst (fst second_run) with
  | Ok r => r
  | Raise _ => VNone
  end.

(** The dictionary a run returned ([None] when an exception left the
    method). *)
Definition result_of (run : outcome pyval * GodAIVerifier * World) : pyval :=
  match fst (fst run) with
  | Ok r => r
  | Raise _ => VNone
  end.

(** An analyzer failure that derives from [Exception]. *)
Definition sensor_offline : PyExc := mkExc "RuntimeError" true "sensor offline".

(** A NOVA-BLOCKS package whose analyzer cannot be constructed and whose
    interface answers [answer] to every quantum computation; the verifier
    built on it has an interface and a simulator but no analyzer. *)
Definition quantum_only_nova (answer : pyval) : NovaBlocks :=
  {| new_AIEmbeddedGoldInterface := fun _ =>
       Ok {| connect := Ok true;
             quantum_initialize := Ok true;
             quantum_compute := fun _ => Ok answer |};
     new_BlackwellQuantumSimulator := Ok QuantumSimulator;
     new_BlackwellMaterialAnalyzer := Raise sensor_offline |}.

Definition quantum_only_verifier (answer : pyval) : GodAIVerifier :=
  fst (snd (GodAIVerifier_init (Some (quantum_only_nova answer)) sample_params
              empty_world)).

Definition stability_answer (stability : pyval) : pyval :=
  VDict [ ("result", VDict [ ("stability", stability) ]) ].

(** The sample call on a verifier without analyzer. *)
Definition quantum_only_run (answer : pyval) : outcome pyval * GodAIVerifier * World :=
  verify_metal_properties true sample_repr (quantum_only_verifier answer)
    sample_timestamp sample_rng 1 100.0 0.999 None empty_world.

(** A metal type of 4301 digits, and the sample call with it on the mock
    verifier. *)
Definition long_metal_type : Z := 10 ^ 4300.

Definition long_metal_type_run : outcome pyval * GodAIVerifier * World :=
  verify_metal_properties true sample_repr mock_verifier sample_timestamp sample_rng
    long_metal_type 100.0 0.999 None empty_world.



(** * Properties *)

Local Open Scope py_scope.

(** ** Reasoning about monadic code *)

Lemma bind_Ok {S A B} (m : M S A) (k : A -> M S B) s b s' :
  bind m k s = (Ok b, s') ->
  exists a s1, m s = (Ok a, s1) /\ k a s1 = (Ok b, s').
Proof.
  unfold bind. destruct (m s) as [[a|e] s1]; intros H.
  - exists a, s1. split; [reflexivity | exact H].
  - discriminate H.
Qed.

Lemma bind_Raise {S A B} (m : M S A) (k : A -> M S B) s e s' :
  bind m k s = (Raise e, s') ->
  m s = (Raise e, s') \/ exists a s1, m s = (Ok a, s1) /\ k a s1 = (Raise e, s').
Proof.
  unfold bind. destruct (m s) as [[a|e0] s1]; intros H.
  - right. exists a, s1. split; [reflexivity | exact H].
  - left. inversion H. reflexivity.
Qed.

Lemma lift_Ok {S A} (o : outcome A) (s s' : S) a :
  lift o s = (Ok a, s') -> o = Ok a /\ s' = s.
Proof. unfold lift. intros H. inversion H. split; reflexivity. Qed.

Lemma obind_Ok {A B} (m : outcome A) (k : A -> outcome B) b :
  obind m k = Ok b -> exists a, m = Ok a /\ k a = Ok b.
Proof. destruct m as [a|e]; simpl; intros H; [eauto | discriminate]. Qed.

(** Splits a hypothesis saying that a sequence returned normally into one
    fact per statement. *)
Ltac monad_inv H :=
  match type of H with
  | bind _ _ _ = (Ok _, _) =>
      let a := fresh "v" in
      let s := fresh "fr" in
      let H1 := fresh "Hrun" in
      let H2 := fresh "Hrun" in
      apply bind_Ok in H; destruct H as (a & s & H1 & H2);
      monad_inv H1; monad_inv H2
  | lift _ _ = (Ok _, _) =>
      let E := fresh "Hval" in
      apply lift_Ok in H; destruct H as [E ->]
  | ret _ _ = (Ok _, _) => unfold ret in H; inversion H; subst; clear H
  | set_result _ _ _ = (Ok _, _) => unfold set_result in H; inversion H; subst; clear H
  | get_result _ _ = (_, _) => unfold get_result in H; inversion H; subst; clear H
  | _ => idtac
  end.

Lemma dict_get_set_same k v d : dict_get k (dict_set k v d) = Some v.
Proof.
  induction d as [|[k' v'] d IH]; simpl.
  - now rewrite String.eqb_refl.
  - destruct (String.eqb k k') eqn:E; simpl; rewrite E; [reflexivity | exact IH].
Qed.

Lemma dict_get_set_other k k' v d :
  k <> k' -> dict_get k (dict_set k' v d) = dict_get k d.
Proof.
  intros Hne. induction d as [|[k0 v0] d IH]; simpl.
  - destruct (String.eqb_spec k k'); [contradiction | reflexivity].
  - destruct (String.eqb_spec k' k0) as [->|Hk]; simpl.
    + destruct (String.eqb_spec k k0); [contradiction | reflexivity].
    + destruct (String.eqb k k0); [reflexivity | exact IH].
Qed.

Section VerifierFacts.

Variable NUMPY_AVAILABLE : bool.
Variable py_repr : pyval -> string.


(** What the first two phases leave when they return. *)
Lemma ai_material_analysis_Ok self mt p sd fr fr' :
  ai_material_analysis self mt p sd fr = (Ok tt, fr') ->
  exists analysis c,
    verification_result fr'
    = dict_set "ai_confidence" (VFloat c)
        (dict_set "ai_analysis" analysis (verification_result fr))
    /\ history fr' = history fr.
Proof.
  unfold ai_material_analysis. intros H.
  destruct (material_analyzer self) as [ma|]; [destruct sd as [d|] |].
  - monad_inv H. unfold call_analyze in Hrun. inversion Hrun; subst; clear Hrun.
    simpl. eauto.
  - monad_inv H. simpl. eauto.
  - monad_inv H. simpl. eauto.
Qed.

Lemma quantum_verification_Ok self mt w p sd fr fr' :
  quantum_verification self mt w p sd fr = (Ok tt, fr') ->
  exists qv q,
    verification_result fr'
    = dict_set "quantum_confidence" q
        (dict_set "quantum_verification" qv (verification_result fr))
    /\ history fr' = history fr.
Proof.
  unfold quantum_verification. intros H.
  destruct (quantum_simulator self) as [qs|].
  - monad_inv H. unfold call_quantum_compute in Hrun.
    destruct (interface self) as [i|]; [|discriminate Hrun].
    inversion Hrun; subst; clear Hrun. simpl. eauto.
  - monad_inv H. simpl. eauto.
Qed.

Lemma try_body_Ok self ts rng mt w p sd wd fr :
  try_body NUMPY_AVAILABLE py_repr self rng mt w p sd
    (mkFrame (initial_result mt w p ts) (verification_history self) wd) = (Ok tt, fr) ->
  exists analysis ai qv q qp entries id,
    py_mul_float q 0.4 = Ok qp
    /\ verification_result fr
       = completed_result mt w p ts analysis ai qv q (ai * 0.6 + qp) id
    /\ minted_id py_repr mt w p ts (0.8 <? ai * 0.6 + qp)%float id
    /\ verification_history self = VList entries
    /\ history fr = VList (entries ++ [VDict (verification_result fr)]).
Proof.
  unfold try_body. intros H.
  apply bind_Ok in H. destruct H as ([] & fr1 & Hai & H).
  apply bind_Ok in H. destruct H as ([] & fr2 & Hq & H).
  apply bind_Ok in H. destruct H as ([] & fr3 & Hdec & Happ).
  apply ai_material_analysis_Ok in Hai. destruct Hai as (analysis & ai & Hr1 & Hh1).
  apply quantum_verification_Ok in Hq. destruct Hq as (qv & q & Hr2 & Hh2).
  rewrite Hr1 in Hr2. simpl in Hr2, Hh1.
  destruct fr2 as [r2 h2 w2]. simpl in Hr2, Hh2. subst r2.
  unfold overall_decision, bind, get_result, set_result, lift, ret in Hdec.
  cbn -[SHA256.hexdigest] in Hdec.
  destruct (py_mul_float q 0.4) as [qp|e] eqn:Hqp; [|discriminate Hdec].
  exists analysis, ai, qv, q, qp.
  unfold history_append in Happ. unfold completed_result, minted_id.
  destruct (0.8 <? ai * 0.6 + qp)%float; cbn -[SHA256.hexdigest] in Hdec.
  - destruct (py_str_int mt) as [metal_type_text|e] eqn:Hmt; [|discriminate Hdec].
    cbn -[SHA256.hexdigest] in Hdec.
    inversion Hdec; subst fr3; clear Hdec. simpl in Happ. rewrite Hh2, Hh1 in Happ.
    destruct (verification_history self) as [| | | | |entries|]; try discriminate Happ.
    exists entries. eexists. inversion Happ; subst fr; clear Happ. simpl.
    split; [exact Hqp|]. split; [reflexivity|]. split; [|split; reflexivity].
    exists metal_type_text, (py_repr (VFloat w)), (py_repr (VFloat p)).
    repeat split; first [exact Hmt | reflexivity].
  - inversion Hdec; subst fr3; clear Hdec. simpl in Happ. rewrite Hh2, Hh1 in Happ.
    destruct (verification_history self) as [| | | | |entries|]; try discriminate Happ.
    exists entries, "". inversion Happ; subst fr; clear Happ. simpl.
    repeat split; first [exact Hqp | reflexivity].
Qed.

End VerifierFacts.

(** ** How a call ends *)

Section CallOutcome.

Variable NUMPY_AVAILABLE : bool.
Variable py_repr : pyval -> string.

(** A call returns the dictionary of a [try] block that returned, or the
    dictionary with the text of a caught exception under ["error"]. *)
Lemma verify_returns self ts rng mt w p sd wd r self' wd' :
  verify_metal_properties NUMPY_AVAILABLE py_repr self ts rng mt w p sd wd
  = (Ok r, self', wd') ->
  (exists fr,
      try_body NUMPY_AVAILABLE py_repr self rng mt w p sd
        (mkFrame (initial_result mt w p ts) (verification_history self) wd)
      = (Ok tt, fr)
      /\ r = VDict (verification_result fr)
      /\ self' = set_verification_history (history fr) self
      /\ wd' = world fr)
  \/ (exists e fr,
      try_body NUMPY_AVAILABLE py_repr self rng mt w p sd
        (mkFrame (initial_result mt w p ts) (verification_history self) wd)
      = (Raise e, fr)
      /\ exc_is_Exception e = true
      /\ r = VDict (dict_set "error" (VStr (exc_str e)) (verification_result fr))
      /\ self' = set_verification_history (history fr) self
      /\ wd' = print_line ("Verification error: " ++ exc_str e) (world fr)).
Proof.
  unfold verify_metal_properties. cbv zeta. intros H.
  destruct (try_body NUMPY_AVAILABLE py_repr self rng mt w p sd _)
    as [[[]|e] fr] eqn:Hbody.
  - left. exists fr. injection H as <- <- <-. repeat split; reflexivity.
  - right. destruct (exc_is_Exception e) eqn:He; [|discriminate H].
    exists e, fr. injection H as <- <- <-. repeat split; first [exact He | reflexivity].
Qed.

(** A returned dictionary without ["error"] comes from a [try] block that
    returned. *)
Lemma verify_completed self ts rng mt w p sd wd r self' wd' :
  verify_metal_properties NUMPY_AVAILABLE py_repr self ts rng mt w p sd wd
  = (Ok r, self', wd') ->
  py_contains "error" r = false ->
  exists fr,
    try_body NUMPY_AVAILABLE py_repr self rng mt w p sd
      (mkFrame (initial_result mt w p ts) (verification_history self) wd) = (Ok tt, fr)
    /\ r = VDict (verification_result fr)
    /\ self' = set_verification_history (history fr) self
    /\ wd' = world fr.
Proof.
  intros H Hne. apply verify_returns in H. destruct H as [H | (e & fr & _ & _ & -> & _)].
  - exact H.
  - simpl in Hne. rewrite dict_get_set_same in Hne. discriminate Hne.
Qed.

(** The closed form of a completed result. *)
Lemma verify_completed_result self ts rng mt w p sd wd r self' wd' :
  verify_metal_properties NUMPY_AVAILABLE py_repr self ts rng mt w p sd wd
  = (Ok r, self', wd') ->
  py_contains "error" r = false ->
  exists analysis ai qv q qp entries id,
    py_mul_float q 0.4 = Ok qp
    /\ r = VDict (completed_result mt w p ts analysis ai qv q (ai * 0.6 + qp) id)
    /\ minted_id py_repr mt w p ts (0.8 <? ai * 0.6 + qp)%float id
    /\ verification_history self = VList entries
    /\ verification_history self' = VList (entries ++ [r]).
Proof.
  intros H Hne. destruct (verify_completed _ _ _ _ _ _ _ _ _ _ _ H Hne)
    as (fr & Hbody & -> & -> & _).
  apply try_body_Ok in Hbody.
  destruct Hbody as (analysis & ai & qv & q & qp & entries & id & Hqp & Hr & Hid & Hh & Hh').
  exists analysis, ai, qv, q, qp, entries, id. simpl. rewrite <- Hr. auto.
Qed.

(** "Completes without an exception" can be read off the result: the
    [try] block returned exactly when the dictionary has no ['error']. *)
Lemma completed_iff_no_error self ts rng mt w p sd wd r self' wd' :
  verify_metal_properties NUMPY_AVAILABLE py_repr self ts rng mt w p sd wd
  = (Ok r, self', wd') ->
  py_contains "error" r = false
  <-> exists fr,
      try_body NUMPY_AVAILABLE py_repr self rng mt w p sd
        (mkFrame (initial_result mt w p ts) (verification_history self) wd) = (Ok tt, fr).
Proof.
  intros H. split.
  - intros Hne. destruct (verify_completed _ _ _ _ _ _ _ _ _ _ _ H Hne) as (fr & Hb & _).
    exists fr. exact Hb.
  - intros (fr & Hb).
    destruct (verify_returns _ _ _ _ _ _ _ _ _ _ _ H)
      as [(fr' & Hb' & -> & _) | (e & fr' & Hb' & _)].
    + apply try_body_Ok in Hb'.
      destruct Hb' as (analysis & ai & qv & q & qp & entries & id & _ & -> & _).
      reflexivity.
    + rewrite Hb in Hb'. discriminate Hb'.
Qed.

End CallOutcome.

(** ** Floating-point facts *)

Lemma float_mul_comm (x y : float) : (x * y)%float = (y * x)%float.
Proof.
  apply Prim2SF_inj. rewrite !mul_spec. unfold SF64mul, SFmul.
  destruct (Prim2SF x) as [sx|sx| |sx mx ex], (Prim2SF y) as [sy|sy| |sy my ey];
    try reflexivity; try (now rewrite xorb_comm).
  now rewrite xorb_comm, Pos.mul_comm, Z.add_comm.
Qed.

Lemma py_mul_float_operand v y z :
  py_mul_float v y = Ok z -> exists x, float_operand "*" v = Ok x /\ z = (x * y)%float.
Proof.
  unfold py_mul_float. destruct v; simpl; intros H; try discriminate H;
    try (inversion H; eauto; fail).
  apply obind_Ok in H. destruct H as (x & Hx & H). inversion H. eauto.
Qed.


Lemma hexdigest_not_empty s : SHA256.hexdigest s <> "".
Proof. unfold SHA256.hexdigest, SHA256.hex_state, SHA256.hex_word. discriminate. Qed.


(** The history after a completed call. *)
Lemma completed_call_appends NUMPY_AVAILABLE py_repr self ts rng mt w p sd wd r self' wd' :
  verify_metal_properties NUMPY_AVAILABLE py_repr self ts rng mt w p sd wd
  = (Ok r, self', wd') ->
  py_contains "error" r = false ->
  exists entries,
    verification_history self = VList entries
    /\ get_verification_history self' = VList (entries ++ [r]).
Proof.
  intros H Hne.
  destruct (verify_completed_result _ _ _ _ _ _ _ _ _ _ _ _ _ H Hne)
    as (analysis & ai & qv & q & qp & entries & id & _ & _ & _ & Hh & Hh').
  exists entries. split; assumption.
Qed.

(** ** What the [try] block leaves untouched *)

Section Preservation.

Variable I : Frame -> Frame -> Prop.
Hypothesis I_refl : forall s, I s s.
Hypothesis I_trans : forall a b c, I a b -> I b c -> I a c.

Lemma preserves_ret {A} (a : A) : preserves I (ret a).
Proof. intros s o s' H. inversion H. apply I_refl. Qed.

Lemma preserves_lift {A} (o : outcome A) : preserves I (lift o).
Proof. intros s o' s' H. inversion H. apply I_refl. Qed.

Lemma preserves_get_result k : preserves I (get_result k).
Proof. intros s o s' H. inversion H. apply I_refl. Qed.

Lemma preserves_bind {A B} (m : M Frame A) (k : A -> M Frame B) :
  preserves I m -> (forall a, preserves I (k a)) -> preserves I (bind m k).
Proof.
  intros Hm Hk s o s' H. unfold bind in H.
  destruct (m s) as [[a|e] s1] eqn:E.
  - apply I_trans with s1; [exact (Hm _ _ _ E) | exact (Hk a _ _ _ H)].
  - inversion H; subst. exact (Hm _ _ _ E).
Qed.

(** The sensor data the phases run on. *)
Variable sensor : option ndarray.

Hypothesis I_set : forall k v, In k assigned_keys -> preserves I (set_result k v).
Hypothesis I_analyze : forall analyzer data,
  sensor = Some data -> preserves I (call_analyze analyzer data).
Hypothesis I_quantum : forall iface quantum_input,
  py_getitem quantum_input "state"
  = Ok (match sensor with
        | Some data => tolist data
        | None => VList (repeat (VFloat 0.5) 1024)
        end) ->
  preserves I (call_quantum_compute iface quantum_input).

Ltac preserves_tac :=
  repeat
    match goal with
    | |- preserves _ (bind _ _) => apply preserves_bind; [ | intros ? ]
    | |- preserves _ (lift _) => apply preserves_lift
    | |- preserves _ (ret _) => apply preserves_ret
    | |- preserves _ (get_result _) => apply preserves_get_result
    | |- preserves _ (set_result _ _) => apply I_set; simpl; tauto
    | |- preserves _ (call_analyze _ _) => apply I_analyze; reflexivity
    | |- preserves _ (call_quantum_compute _ _) => apply I_quantum; reflexivity
    | |- preserves _ (if ?b then _ else _) => destruct b
    | |- preserves _ (let _ := _ in _) => cbv zeta
    end.

Lemma ai_material_analysis_preserves self mt p :
  preserves I (ai_material_analysis self mt p sensor).
Proof.
  unfold ai_material_analysis.
  destruct (material_analyzer self) as [ma|]; [destruct sensor as [d|] eqn:Hs|];
    preserves_tac.
Qed.

Lemma quantum_verification_preserves self mt w p :
  preserves I (quantum_verification self mt w p sensor).
Proof.
  unfold quantum_verification.
  destruct (quantum_simulator self) as [qs|]; preserves_tac.
Qed.

Lemma overall_decision_preserves py_repr mt w p :
  preserves I (overall_decision py_repr mt w p).
Proof. unfold overall_decision. preserves_tac. Qed.

(** The three phases before the history is touched. *)
Lemma phases_preserve py_repr self mt w p :
  preserves I (ai_material_analysis self mt p sensor ;;
               quantum_verification self mt w p sensor ;;
               overall_decision py_repr mt w p).
Proof.
  apply preserves_bind; [apply ai_material_analysis_preserves | intros _].
  apply preserves_bind; [apply quantum_verification_preserves | intros _].
  apply overall_decision_preserves.
Qed.

End Preservation.

Lemma bind_assoc {S A B C} (m : M S A) (k : A -> M S B) (h : B -> M S C) s :
  bind (bind m k) h s = bind m (fun a => bind (k a) h) s.
Proof. unfold bind. destruct (m s) as [[a|e] s1]; reflexivity. Qed.

Lemma bind_ext {S A B} (m : M S A) (k k' : A -> M S B) s :
  (forall a s1, k a s1 = k' a s1) -> bind m k s = bind m k' s.
Proof. intros H. unfold bind. destruct (m s) as [[a|e] s1]; [apply H | reflexivity]. Qed.

(** The [try] block is the three phases followed by the append. *)
Lemma try_body_phases NUMPY_AVAILABLE py_repr self rng mt w p sd s :
  try_body NUMPY_AVAILABLE py_repr self rng mt w p sd s
  = bind (ai_material_analysis self mt p (generate_sensor_data NUMPY_AVAILABLE rng sd) ;;
          quantum_verification self mt w p (generate_sensor_data NUMPY_AVAILABLE rng sd) ;;
          overall_decision py_repr mt w p)
         (fun _ => history_append) s.
Proof.
  unfold try_body. cbv zeta. rewrite bind_assoc. apply bind_ext.
  intros a s1. now rewrite bind_assoc.
Qed.

(** *** The history *)

Lemma phases_keep_history py_repr self mt w p sensor :
  preserves same_history
    (ai_material_analysis self mt p sensor ;;
     quantum_verification self mt w p sensor ;;
     overall_decision py_repr mt w p).
Proof.
  apply phases_preserve; unfold same_history.
  - reflexivity.
  - intros a b c H1 H2. congruence.
  - intros k v _ s o s' H. inversion H. reflexivity.
  - intros ma d _ s o s' H. inversion H. reflexivity.
  - intros i qi _ s o s' H. unfold call_quantum_compute in H.
    destruct i; inversion H; reflexivity.
Qed.

(** A [try] block that raises leaves the history as it was. *)
Lemma try_body_Raise_history NUMPY_AVAILABLE py_repr self rng mt w p sd s e s' :
  try_body NUMPY_AVAILABLE py_repr self rng mt w p sd s = (Raise e, s') ->
  history s' = history s.
Proof.
  rewrite try_body_phases. intros H.
  apply bind_Raise in H. destruct H as [H | ([] & s1 & H & Happ)].
  - exact (phases_keep_history _ _ _ _ _ _ _ _ _ H).
  - apply phases_keep_history in H. unfold same_history in H.
    assert (Hs : s' = s1).
    { unfold history_append in Happ. destruct (history s1); inversion Happ; reflexivity. }
    subst s'. exact H.
Qed.

(** *** The arguments recorded in the result *)

Lemma try_body_keeps NUMPY_AVAILABLE py_repr self rng mt w p sd k :
  ~ In k assigned_keys ->
  preserves (keeps k) (try_body NUMPY_AVAILABLE py_repr self rng mt w p sd).
Proof.
  intros Hk s o s' H. rewrite try_body_phases in H. revert s o s' H.
  apply preserves_bind.
  - unfold keeps. intros a b c H1 H2. congruence.
  - apply phases_preserve with (sensor := generate_sensor_data NUMPY_AVAILABLE rng sd);
      unfold keeps.
    + reflexivity.
    + intros a b c H1 H2. congruence.
    + intros k' v Hin s o s' H. inversion H. simpl.
      apply dict_get_set_other. intros ->. contradiction.
    + intros ma d _ s o s' H. inversion H. reflexivity.
    + intros i qi _ s o s' H. unfold call_quantum_compute in H.
      destruct i; inversion H; reflexivity.
  - intros _ s o s' H. unfold history_append in H. unfold keeps.
    destruct (history s); inversion H; reflexivity.
Qed.


(** The append leaves the dictionary alone, and what it may raise derives
    from [Exception]. *)
Lemma history_append_result fr :
  exists o h,
    history_append fr = (o, mkFrame (verification_result fr) h (world fr))
    /\ match o with
       | Ok _ => True
       | Raise e => exc_is_Exception e = true
       end.
Proof.
  unfold history_append. destruct fr as [r h wd]. simpl.
  destruct h; eexists; eexists; (split; [reflexivity | simpl; auto]).
Qed.

Ltac split_append :=
  repeat
    match goal with
    | |- context [history_append ?f] =>
        let o := fresh "o" in
        let h := fresh "h" in
        let E := fresh "E" in
        let Ho := fresh "Ho" in
        destruct (history_append_result f) as (o & h & E & Ho);
        rewrite E; clear E; destruct o as [[]|?]; cbn -[SHA256.hexdigest];
        rewrite ?Ho
    end.


(** *** The library calls *)

Lemma bind_inv {S A B} (m : M S A) (k : A -> M S B) s o s' :
  bind m k s = (o, s') ->
  exists o1 s1,
    m s = (o1, s1)
    /\ match o1 with
       | Ok a => k a s1 = (o, s')
       | Raise e => o = Raise e /\ s' = s1
       end.
Proof.
  unfold bind. destruct (m s) as [[a|e] s1]; intros H.
  - exists (Ok a), s1. split; [reflexivity | exact H].
  - exists (Raise e), s1. inversion H. repeat split; reflexivity.
Qed.

Lemma calls_extend_refl data s : calls_extend data s s.
Proof. exists []. split; [now rewrite app_nil_r | constructor]. Qed.

Lemma calls_extend_world data s s' : world s' = world s -> calls_extend data s s'.
Proof. intros E. exists []. rewrite E. split; [now rewrite app_nil_r | constructor]. Qed.

Lemma calls_extend_trans data a b c :
  calls_extend data a b -> calls_extend data b c -> calls_extend data a c.
Proof.
  intros (n1 & E1 & F1) (n2 & E2 & F2). exists (n1 ++ n2)%list. split.
  - now rewrite E2, E1, app_assoc.
  - apply Forall_app. split; assumption.
Qed.

Lemma history_append_calls data : preserves (calls_extend data) history_append.
Proof.
  intros s o s' H. unfold history_append in H.
  destruct (history s); inversion H; apply calls_extend_world; reflexivity.
Qed.

Lemma quantum_calls data self mt w p :
  preserves (calls_extend data) (quantum_verification self mt w p (Some data)).
Proof.
  apply quantum_verification_preserves.
  - apply calls_extend_refl.
  - apply calls_extend_trans.
  - intros k v _ s o s' H. inversion H. apply calls_extend_world. reflexivity.
  - intros i qi Hstate s o s' H. unfold call_quantum_compute in H.
    destruct i as [i|]; inversion H; [|apply calls_extend_world; reflexivity].
    exists [QuantumCall qi]. split; [reflexivity|].
    constructor; [exact Hstate | constructor].
Qed.

Lemma decision_calls data py_repr mt w p :
  preserves (calls_extend data) (overall_decision py_repr mt w p).
Proof.
  apply overall_decision_preserves.
  - apply calls_extend_refl.
  - apply calls_extend_trans.
  - intros k v _ s o s' H. inversion H. apply calls_extend_world. reflexivity.
Qed.

(** Statements that touch neither the library nor the output leave the
    call log as it is. *)
Ltac same_calls :=
  repeat
    match goal with
    | |- preserves _ (bind _ _) =>
        apply preserves_bind; [intros ? ? ? ? ?; congruence | | intros ?]
    | |- preserves _ (lift _) => apply preserves_lift; reflexivity
    | |- preserves _ (set_result _ _) =>
        let H := fresh in intros ? ? ? H; inversion H; reflexivity
    | |- preserves _ (let _ := _ in _) => cbv zeta
    end.

Ltac same_calls_in H :=
  revert H;
  match goal with
  | |- ?m ?fr = _ -> _ =>
      let Hp := fresh "Hp" in
      let Hrun := fresh "Hrun" in
      enough (Hp : preserves (fun a b => nova_calls (world b) = nova_calls (world a)) m)
        by (intros Hrun; exact (Hp _ _ _ Hrun))
  end;
  same_calls.

(** With an analyzer and sensor data, the first phase makes exactly one
    call: the analyzer on the data. *)
Lemma ai_material_analysis_calls self ma mt p data s o s' :
  material_analyzer self = Some ma ->
  ai_material_analysis self mt p (Some data) s = (o, s') ->
  nova_calls (world s') = (nova_calls (world s) ++ [AnalyzeCall data])%list.
Proof.
  intros Hma H. unfold ai_material_analysis in H. rewrite Hma in H.
  apply bind_inv in H. destruct H as (o1 & s1 & Hcall & H).
  unfold call_analyze in Hcall. injection Hcall as <- <-.
  destruct (analyze_material_properties ma data) as [analysis|e].
  - assert (Hrest : nova_calls (world s')
                    = nova_calls (log_call (AnalyzeCall data) (world s)))
      by same_calls_in H.
    exact Hrest.
  - destruct H as [_ ->]. reflexivity.
Qed.

(** With a simulator and an interface, the second phase makes exactly one
    call: the interface on a dictionary whose ["state"] is the data. *)
Lemma quantum_verification_calls self qs iface mt w p data s o s' :
  quantum_simulator self = Some qs ->
  interface self = Some iface ->
  quantum_verification self mt w p (Some data) s = (o, s') ->
  exists quantum_input,
    nova_calls (world s') = (nova_calls (world s) ++ [QuantumCall quantum_input])%list.
Proof.
  intros Hqs Hif H. unfold quantum_verification in H. rewrite Hqs, Hif in H.
  cbv zeta in H. apply bind_inv in H. destruct H as (o1 & s1 & Hcall & H).
  unfold call_quantum_compute in Hcall. injection Hcall as <- <-.
  eexists.
  destruct (quantum_compute iface _) as [quantum_result|e].
  - assert (Hrest : nova_calls (world s')
                    = nova_calls (log_call (QuantumCall _) (world s)))
      by same_calls_in H.
    exact Hrest.
  - destruct H as [_ ->]. reflexivity.
Qed.

(** Without an analyzer the first phase stores the mock analysis: it
    returns and calls nothing. *)
Lemma mock_analysis_calls self mt p sensor s o s' :
  material_analyzer self = None ->
  ai_material_analysis self mt p sensor s = (o, s') ->
  o = Ok tt /\ world s' = world s.
Proof.
  intros Hma H. unfold ai_material_analysis in H. rewrite Hma in H.
  inversion H. split; reflexivity.
Qed.

Lemma try_body_calls NUMPY_AVAILABLE py_repr self rng mt w p sd data :
  generate_sensor_data NUMPY_AVAILABLE rng sd = Some data ->
  preserves (calls_extend data) (try_body NUMPY_AVAILABLE py_repr self rng mt w p sd).
Proof.
  intros Hsd s o s' H. rewrite try_body_phases, Hsd in H. revert s o s' H.
  apply preserves_bind; [apply calls_extend_trans | | intros _; apply history_append_calls].
  apply phases_preserve.
  - apply calls_extend_refl.
  - apply calls_extend_trans.
  - intros k v _ s o s' H. inversion H. apply calls_extend_world. reflexivity.
  - intros ma d Hd s o s' H. injection Hd as <-. inversion H.
    exists [AnalyzeCall data]. split; [reflexivity|].
    constructor; [reflexivity | constructor].
  - intros i qi Hstate s o s' H. unfold call_quantum_compute in H.
    destruct i as [i|]; inversion H; [|apply calls_extend_world; reflexivity].
    exists [QuantumCall qi]. split; [reflexivity|].
    constructor; [exact Hstate | constructor].
Qed.

Lemma try_body_analyzer_called NUMPY_AVAILABLE py_repr self ma rng mt w p sd data s o s' :
  material_analyzer self = Some ma ->
  generate_sensor_data NUMPY_AVAILABLE rng sd = Some data ->
  try_body NUMPY_AVAILABLE py_repr self rng mt w p sd s = (o, s') ->
  exists rest,
    nova_calls (world s') = (nova_calls (world s) ++ AnalyzeCall data :: rest)%list.
Proof.
  intros Hma Hsd H. unfold try_body in H. cbv zeta in H. rewrite Hsd in H.
  apply bind_inv in H. destruct H as (o1 & s1 & Hai & H).
  apply (ai_material_analysis_calls _ _ _ _ _ _ _ _ Hma) in Hai.
  destruct o1 as [[]|e].
  - assert (Hrest : calls_extend data s1 s').
    { revert H. generalize s1 o s'.
      apply preserves_bind; [apply calls_extend_trans | apply quantum_calls | intros _].
      apply preserves_bind; [apply calls_extend_trans | apply decision_calls | intros _].
      apply history_append_calls. }
    destruct Hrest as (new & Hnew & _). exists new.
    now rewrite Hnew, Hai, <- app_assoc.
  - destruct H as [_ ->]. exists []. exact Hai.
Qed.

Lemma try_body_quantum_called NUMPY_AVAILABLE py_repr self qs iface rng mt w p sd data
    s o s' :
  material_analyzer self = None ->
  quantum_simulator self = Some qs ->
  interface self = Some iface ->
  generate_sensor_data NUMPY_AVAILABLE rng sd = Some data ->
  try_body NUMPY_AVAILABLE py_repr self rng mt w p sd s = (o, s') ->
  exists quantum_input rest,
    nova_calls (world s')
    = (nova_calls (world s) ++ QuantumCall quantum_input :: rest)%list.
Proof.
  intros Hma Hqs Hif Hsd H. unfold try_body in H. cbv zeta in H. rewrite Hsd in H.
  apply bind_inv in H. destruct H as (o1 & s1 & Hai & H).
  destruct (mock_analysis_calls _ _ _ _ _ _ _ Hma Hai) as [-> Hw1].
  apply bind_inv in H. destruct H as (o2 & s2 & Hq & H).
  destruct (quantum_verification_calls _ _ _ _ _ _ _ _ _ _ Hqs Hif Hq) as (qi & Hw2).
  rewrite Hw1 in Hw2. exists qi.
  destruct o2 as [[]|e].
  - assert (Hrest : calls_extend data s2 s').
    { revert H. generalize s2 o s'.
      apply preserves_bind; [apply calls_extend_trans | apply decision_calls | intros _].
      apply history_append_calls. }
    destruct Hrest as (new & Hnew & _). exists new.
    now rewrite Hnew, Hw2, <- app_assoc.
  - destruct H as [_ ->]. exists []. exact Hw2.
Qed.

(** The calls of a whole call to [verify_metal_properties]. *)
Lemma verify_calls_use NUMPY_AVAILABLE py_repr self ts rng mt w p sd wd data :
  generate_sensor_data NUMPY_AVAILABLE rng sd = Some data ->
  calls_use data self wd
    (snd (verify_metal_properties NUMPY_AVAILABLE py_repr self ts rng mt w p sd wd)).
Proof.
  intros Hsd. unfold verify_metal_properties. cbv zeta.
  destruct (try_body NUMPY_AVAILABLE py_repr self rng mt w p sd _) as [o fr] eqn:Hbody.
  assert (Hw : nova_calls
                 (snd (match o with
                       | Ok _ =>
                           (Ok (VDict (verification_result fr)),
                            set_verification_history (history fr) self, world fr)
                       | Raise e =>
                           if exc_is_Exception e
                           then (Ok (VDict (dict_set "error" (VStr (exc_str e))
                                              (verification_result fr))),
                                 set_verification_history (history fr) self,
                                 print_line ("Verification error: " ++ exc_str e) (world fr))
                           else (Raise e, set_verification_history (history fr) self,
                                 world fr)
                       end))
               = nova_calls (world fr)).
  { destruct o as [u|e]; [reflexivity | destruct (exc_is_Exception e); reflexivity]. }
  unfold calls_use. rewrite Hw.
  destruct (try_body_calls _ _ _ _ _ _ _ _ _ Hsd _ _ _ Hbody) as (new & Hnew & Hall).
  simpl in Hnew. exists new. repeat split; try assumption.
  - intros Hma. destruct (material_analyzer self) as [ma|] eqn:E; [|contradiction].
    destruct (try_body_analyzer_called _ _ _ _ _ _ _ _ _ _ _ _ _ E Hsd Hbody)
      as (rest & Hrest).
    simpl in Hrest. rewrite Hnew in Hrest. apply app_inv_head in Hrest. subst new.
    left. reflexivity.
  - intros Hma Hqs Hif.
    destruct (quantum_simulator self) as [qs|] eqn:Eq; [|contradiction].
    destruct (interface self) as [iface|] eqn:Ei; [|contradiction].
    destruct (try_body_quantum_called _ _ _ _ _ _ _ _ _ _ _ _ _ _ Hma Eq Ei Hsd Hbody)
      as (qi & rest & Hrest).
    simpl in Hrest. rewrite Hnew in Hrest. apply app_inv_head in Hrest. subst new.
    exists qi. left. reflexivity.
Qed.


(** *** The log file *)



(** ** The claims *)

(** C1: a call that completes without an exception returns a ['confidence']
    equal to 0.6 * ai_confidence + 0.4 * quantum_confidence, computed on the
    ['ai_confidence'] and ['quantum_confidence'] entries of the same
    result. *)
Theorem C1_confidence_is_weighted_combination :
  forall NUMPY_AVAILABLE py_repr self ts rng mt w p sd wd r self' wd',
    verify_metal_properties NUMPY_AVAILABLE py_repr self ts rng mt w p sd wd
    = (Ok r, self', wd') ->
    py_contains "error" r = false ->
    exists ai q c,
      py_getitem r "ai_confidence" = Ok ai
      /\ py_getitem r "quantum_confidence" = Ok q
      /\ weighted_combination ai q = Ok c
      /\ py_getitem r "confidence" = Ok (VFloat c).
Proof.
  intros NP py_repr self ts rng mt w p sd wd r self' wd' H Hne.
  destruct (verify_completed_result _ _ _ _ _ _ _ _ _ _ _ _ _ H Hne)
    as (analysis & ai & qv & q & qp & entries & id & Hqp & -> & _ & _ & _).
  apply py_mul_float_operand in Hqp. destruct Hqp as (x & Hx & ->).
  exists (VFloat ai), q, (0.6 * ai + 0.4 * x)%float.
  repeat split; try reflexivity.
  - unfold weighted_combination. simpl. rewrite Hx. reflexivity.
  - simpl. now rewrite (float_mul_comm ai), (float_mul_comm x).
Qed.

(** C2: on a call that completes without an exception, the overall
    confidence is computed from the ['ai_confidence'] and
    ['quantum_confidence'] entries of the result and stored under
    ['confidence'], and ['verified'] is [True] exactly when that computed
    confidence is strictly greater than 0.8, and [False] otherwise. *)
Theorem C2_verified_iff_confidence_above_threshold :
  forall NUMPY_AVAILABLE py_repr self ts rng mt w p sd wd r self' wd',
    verify_metal_properties NUMPY_AVAILABLE py_repr self ts rng mt w p sd wd
    = (Ok r, self', wd') ->
    py_contains "error" r = false ->
    exists ai q c,
      py_getitem r "ai_confidence" = Ok ai
      /\ py_getitem r "quantum_confidence" = Ok q
      /\ weighted_combination ai q = Ok c
      /\ py_getitem r "confidence" = Ok (VFloat c)
      /\ py_getitem r "verified" = Ok (VBool (0.8 <? c)%float).
Proof.
  intros NP py_repr self ts rng mt w p sd wd r self' wd' H Hne.
  destruct (verify_completed_result _ _ _ _ _ _ _ _ _ _ _ _ _ H Hne)
    as (analysis & ai & qv & q & qp & entries & id & Hqp & -> & _ & _ & _).
  apply py_mul_float_operand in Hqp. destruct Hqp as (x & Hx & ->).
  exists (VFloat ai), q, (0.6 * ai + 0.4 * x)%float.
  split; [reflexivity|]. split; [reflexivity|]. split.
  - unfold weighted_combination. simpl. rewrite Hx. reflexivity.
  - simpl. rewrite (float_mul_comm ai), (float_mul_comm x). split; reflexivity.
Qed.

(** C3: on a call that completes without an exception, a verified result
    carries as ['verification_id'] the SHA-256 hex digest of the
    concatenation of [str(metal_type)], [str(weight)], [str(purity)] and the
    result's ['timestamp']; a result that is not verified carries the empty
    string. *)
Theorem C3_verification_id_is_sha256_of_inputs :
  forall NUMPY_AVAILABLE py_repr self ts rng mt w p sd wd r self' wd',
    verify_metal_properties NUMPY_AVAILABLE py_repr self ts rng mt w p sd wd
    = (Ok r, self', wd') ->
    py_contains "error" r = false ->
    exists verified timestamp,
      py_getitem r "verified" = Ok (VBool verified)
      /\ py_getitem r "timestamp" = Ok (VStr timestamp)
      /\ if verified then
           exists metal_type_text weight_text purity_text,
             py_str py_repr (VInt mt) = Ok metal_type_text
             /\ py_str py_repr (VFloat w) = Ok weight_text
             /\ py_str py_repr (VFloat p) = Ok purity_text
             /\ py_getitem r "verification_id"
                = Ok (VStr (SHA256.hexdigest
                              (metal_type_text ++ weight_text ++ purity_text
                               ++ timestamp)))
         else py_getitem r "verification_id" = Ok (VStr "").
Proof.
  intros NP py_repr self ts rng mt w p sd wd r self' wd' H Hne.
  destruct (verify_completed_result _ _ _ _ _ _ _ _ _ _ _ _ _ H Hne)
    as (analysis & ai & qv & q & qp & entries & id & _ & -> & Hid & _ & _).
  exists (0.8 <? ai * 0.6 + qp)%float, ts.
  split; [reflexivity|]. split; [reflexivity|].
  unfold minted_id in Hid. destruct (0.8 <? ai * 0.6 + qp)%float.
  - destruct Hid as (mtt & wt & pt & Hm & Hw & Hp & ->).
    exists mtt, wt, pt. repeat split; assumption || reflexivity.
  - subst id. reflexivity.
Qed.

(** C4 (amended): an exception raised inside the [try] block that derives
    from [Exception] is caught by the single handler, its text is printed and
    recorded under ['error'], and the dictionary is still returned; an
    exception that does not derive from [Exception] leaves the method. *)
Theorem C4_exception_caught_when_it_derives_from_Exception :
  forall NUMPY_AVAILABLE py_repr self ts rng mt w p sd wd e fr,
    try_body NUMPY_AVAILABLE py_repr self rng mt w p sd
      (mkFrame (initial_result mt w p ts) (verification_history self) wd)
    = (Raise e, fr) ->
    if exc_is_Exception e then
      exists r,
        verify_metal_properties NUMPY_AVAILABLE py_repr self ts rng mt w p sd wd
        = (Ok r, set_verification_history (history fr) self,
           print_line ("Verification error: " ++ exc_str e) (world fr))
        /\ r = VDict (dict_set "error" (VStr (exc_str e)) (verification_result fr))
        /\ py_getitem r "error" = Ok (VStr (exc_str e))
    else
      fst (fst (verify_metal_properties NUMPY_AVAILABLE py_repr self ts rng mt w p sd wd))
      = Raise e.
Proof.
  intros NP py_repr self ts rng mt w p sd wd e fr Hbody.
  unfold verify_metal_properties. cbv zeta. rewrite Hbody.
  destruct (exc_is_Exception e).
  - eexists. split; [reflexivity|]. split; [reflexivity|].
    simpl. now rewrite dict_get_set_same.
  - reflexivity.
Qed.

(** C5 (amended): with no analyzer and no quantum simulator, a call that
    completes without an exception has ['ai_confidence'] 0.85,
    ['quantum_confidence'] 0.9 and, in binary64 arithmetic, ['confidence']
    0.85 * 0.6 + 0.9 * 0.4 = 0.8700000000000001; it is verified and
    blockchain-ready whatever the metal type, weight and purity. *)
Theorem C5_mock_values_always_verify :
  forall NUMPY_AVAILABLE py_repr self ts rng mt w p sd wd r self' wd',
    material_analyzer self = None ->
    quantum_simulator self = None ->
    verify_metal_properties NUMPY_AVAILABLE py_repr self ts rng mt w p sd wd
    = (Ok r, self', wd') ->
    py_contains "error" r = false ->
    py_getitem r "ai_confidence" = Ok (VFloat 0.85)
    /\ py_getitem r "quantum_confidence" = Ok (VFloat 0.9)
    /\ py_getitem r "confidence" = Ok (VFloat 0.8700000000000001)
    /\ py_getitem r "verified" = Ok (VBool true)
    /\ py_getitem r "blockchain_ready" = Ok (VBool true).
Proof.
  intros NP py_repr self ts rng mt w p sd wd r self' wd' Hma Hqs H Hne.
  destruct (verify_completed _ _ _ _ _ _ _ _ _ _ _ _ _ H Hne) as (fr & Hbody & -> & _).
  unfold try_body, ai_material_analysis, quantum_verification in Hbody.
  rewrite Hma, Hqs in Hbody.
  unfold overall_decision, history_append, bind, set_result, get_result, lift, ret
    in Hbody.
  cbn -[SHA256.hexdigest] in Hbody.
  destruct (py_str_int mt) as [metal_type_text|e]; cbn -[SHA256.hexdigest] in Hbody;
    [|discriminate Hbody].
  destruct (verification_history self); inversion Hbody; subst fr; clear Hbody.
  simpl. repeat split; reflexivity.
Qed.

(** C6 (amended): two calls that differ only in the analyses their
    analyzers return, where both analyses let [density_match] and
    [purity_match] be computed and agree on ['ai_embedded_efficiency'],
    ['thermal_stability'] and ['neural_interface_strength'], end with the
    same ['verified'] (or leave with the same exception): the two booleans
    are not read. *)
Theorem C6_verified_ignores_density_and_purity :
  forall NUMPY_AVAILABLE py_repr self1 self2 ma1 ma2 ts1 ts2 rng mt w p sd wd1 wd2
         data a1 a2 m1 m2,
    material_analyzer self1 = Some ma1 ->
    material_analyzer self2 = Some ma2 ->
    quantum_simulator self1 = quantum_simulator self2 ->
    interface self1 = interface self2 ->
    generate_sensor_data NUMPY_AVAILABLE rng sd = Some data ->
    analyze_material_properties ma1 data = Ok a1 ->
    analyze_material_properties ma2 data = Ok a2 ->
    density_purity_match a1 mt p = Ok m1 ->
    density_purity_match a2 mt p = Ok m2 ->
    py_getitem a1 "ai_embedded_efficiency" = py_getitem a2 "ai_embedded_efficiency" ->
    py_getitem a1 "thermal_stability" = py_getitem a2 "thermal_stability" ->
    py_getitem a1 "neural_interface_strength" = py_getitem a2 "neural_interface_strength" ->
    verified_field
      (verify_metal_properties NUMPY_AVAILABLE py_repr self1 ts1 rng mt w p sd wd1)
    = verified_field
        (verify_metal_properties NUMPY_AVAILABLE py_repr self2 ts2 rng mt w p sd wd2).
Proof.
  intros NP py_repr self1 self2 ma1 ma2 ts1 ts2 rng mt w p sd wd1 wd2 data a1 a2 m1 m2
         Hma1 Hma2 Hqs Hif Hsd Ha1 Ha2 Hm1 Hm2 He Ht Hn.
  unfold verified_field, verify_metal_properties, try_body, ai_material_analysis,
    quantum_verification.
  cbv zeta. rewrite Hsd, Hma1, Hma2, Hqs, Hif.
  unfold bind, lift, call_analyze, set_result.
  rewrite Ha1, Ha2, Hm1, Hm2, He, Ht, Hn.
  destruct (py_getitem a2 "ai_embedded_efficiency") as [e|x];
    [|cbn; destruct (exc_is_Exception x); reflexivity].
  destruct (py_getitem a2 "thermal_stability") as [t|x];
    [|cbn; destruct (exc_is_Exception x); reflexivity].
  destruct (py_add e t) as [s2|x];
    [|cbn; destruct (exc_is_Exception x); reflexivity].
  destruct (py_getitem a2 "neural_interface_strength") as [n|x];
    [|cbn; destruct (exc_is_Exception x); reflexivity].
  destruct (py_add s2 n) as [s3|x];
    [|cbn; destruct (exc_is_Exception x); reflexivity].
  destruct (py_truediv_float s3 3) as [c|x];
    [|cbn; destruct (exc_is_Exception x); reflexivity].
  destruct (quantum_simulator self2) as [qs|].
  - unfold call_quantum_compute.
    destruct (interface self2) as [i|]; [|reflexivity].
    cbn -[SHA256.hexdigest overall_decision history_append].
    destruct (quantum_compute i _) as [qr|x];
      [|cbn; destruct (exc_is_Exception x); reflexivity].
    destruct (py_getitem qr "result") as [res|x];
      [|cbn; destruct (exc_is_Exception x); reflexivity].
    destruct (py_getitem res "stability") as [q|x];
      [|cbn; destruct (exc_is_Exception x); reflexivity].
    unfold overall_decision, bind, set_result, get_result, lift, ret.
    cbn -[SHA256.hexdigest history_append].
    destruct (py_mul_float q 0.4) as [qp|x];
      [|cbn; destruct (exc_is_Exception x); reflexivity].
    destruct (0.8 <? c * 0.6 + qp)%float; cbn -[SHA256.hexdigest history_append];
      [destruct (py_str_int mt) as [metal_type_text|x];
       cbn -[SHA256.hexdigest history_append];
       [|destruct (exc_is_Exception x); reflexivity] |];
      split_append; reflexivity.
  - unfold overall_decision, bind, set_result, get_result, lift, ret.
    cbn -[SHA256.hexdigest history_append].
    match goal with |- context [(0.8 <? ?x)%float] => destruct (0.8 <? x)%float end;
      cbn -[SHA256.hexdigest history_append];
      [destruct (py_str_int mt) as [metal_type_text|x];
       cbn -[SHA256.hexdigest history_append];
       [|destruct (exc_is_Exception x); reflexivity] |];
      split_append; reflexivity.
Qed.

(** C7: a call that completes without an exception appends exactly one
    entry, the returned dictionary, to [verification_history], which is what
    [get_verification_history] returns; a call that caught an exception
    (its result has ['error']) leaves [verification_history] as it was. *)
Theorem C7_history_appended_once_or_unchanged :
  forall NUMPY_AVAILABLE py_repr self ts rng mt w p sd wd r self' wd',
    verify_metal_properties NUMPY_AVAILABLE py_repr self ts rng mt w p sd wd
    = (Ok r, self', wd') ->
    if py_contains "error" r
    then get_verification_history self' = verification_history self
    else exists entries,
        verification_history self = VList entries
        /\ get_verification_history self' = VList (entries ++ [r]).
Proof.
  intros NP py_repr self ts rng mt w p sd wd r self' wd' H.
  destruct (py_contains "error" r) eqn:Herr.
  - destruct (verify_returns _ _ _ _ _ _ _ _ _ _ _ _ _ H)
      as [(fr & Hbody & -> & _) | (e & fr & Hbody & _ & _ & -> & _)].
    + apply try_body_Ok in Hbody.
      destruct Hbody as (analysis & ai & qv & q & qp & entries & id & _ & Hr & _).
      rewrite Hr in Herr. discriminate Herr.
    + apply try_body_Raise_history in Hbody. exact Hbody.
  - exact (completed_call_appends _ _ _ _ _ _ _ _ _ _ _ _ _ H Herr).
Qed.



(** C10: every returned dictionary records the arguments under
    ['metal_type'], ['weight'] and ['purity']; when the call completed
    without an exception, ['blockchain_ready'] equals ['verified'] and
    ['verification_id'] is a string that is non-empty exactly when
    ['verified'] is [True]. *)
Theorem C10_result_invariants :
  forall NUMPY_AVAILABLE py_repr self ts rng mt w p sd wd r self' wd',
    verify_metal_properties NUMPY_AVAILABLE py_repr self ts rng mt w p sd wd
    = (Ok r, self', wd') ->
    (py_getitem r "metal_type" = Ok (VInt mt)
     /\ py_getitem r "weight" = Ok (VFloat w)
     /\ py_getitem r "purity" = Ok (VFloat p))
    /\ (py_contains "error" r = false ->
        exists verified id,
          py_getitem r "verified" = Ok (VBool verified)
          /\ py_getitem r "blockchain_ready" = Ok (VBool verified)
          /\ py_getitem r "verification_id" = Ok (VStr id)
          /\ (id <> "" <-> verified = true)).
Proof.
  intros NP py_repr self ts rng mt w p sd wd r self' wd' H. split.
  - assert (Hkeep : forall k fr o,
               ~ In k assigned_keys ->
               try_body NP py_repr self rng mt w p sd
                 (mkFrame (initial_result mt w p ts) (verification_history self) wd)
               = (o, fr) ->
               dict_get k (verification_result fr) = dict_get k (initial_result mt w p ts)).
    { intros k fr o Hk Hb. exact (try_body_keeps _ _ _ _ _ _ _ _ _ Hk _ _ _ Hb). }
    assert (Hargs : forall fr o,
               try_body NP py_repr self rng mt w p sd
                 (mkFrame (initial_result mt w p ts) (verification_history self) wd)
               = (o, fr) ->
               dict_get "metal_type" (verification_result fr) = Some (VInt mt)
               /\ dict_get "weight" (verification_result fr) = Some (VFloat w)
               /\ dict_get "purity" (verification_result fr) = Some (VFloat p)).
    { intros fr o Hb. repeat split; erewrite Hkeep by
        (try exact Hb; simpl; intuition discriminate); reflexivity. }
    destruct (verify_returns _ _ _ _ _ _ _ _ _ _ _ _ _ H)
      as [(fr & Hbody & -> & _) | (e & fr & Hbody & _ & -> & _)];
      destruct (Hargs _ _ Hbody) as (Hm & Hw & Hp); simpl.
    + rewrite Hm, Hw, Hp. auto.
    + rewrite !dict_get_set_other by discriminate. rewrite Hm, Hw, Hp. auto.
  - intros Hne.
    destruct (verify_completed_result _ _ _ _ _ _ _ _ _ _ _ _ _ H Hne)
      as (analysis & ai & qv & q & qp & entries & id & _ & -> & Hid & _ & _).
    exists (0.8 <? ai * 0.6 + qp)%float, id. unfold minted_id in Hid.
    repeat split; try reflexivity.
    + destruct (0.8 <? ai * 0.6 + qp)%float; [reflexivity | intros Hne'; now elim Hne'].
    + intros Hv. rewrite Hv in Hid.
      destruct Hid as (metal_type_text & weight_text & purity_text & _ & _ & _ & ->).
      apply hexdigest_not_empty.
Qed.

(** ** Further properties of the code *)

(** *** The constructor *)

(** X1: whatever the package does, the constructor leaves the three
    NOVA-BLOCKS attributes set in order (an analyzer only with a simulator, a
    simulator only with an interface), the history empty and the
    connection parameters stored; without the package all three are
    [None]. *)
Theorem X1_constructor_sets_attributes_in_order :
  forall NOVA_AVAILABLE params w,
    let self := fst (snd (GodAIVerifier_init NOVA_AVAILABLE params w)) in
    (material_analyzer self <> None -> quantum_simulator self <> None)
    /\ (quantum_simulator self <> None -> interface self <> None)
    /\ verification_history self = VList []
    /\ connection_params self = params
    /\ (NOVA_AVAILABLE = None ->
        interface self = None /\ quantum_simulator self = None
        /\ material_analyzer self = None).
Proof.
  intros [nova|] params w; cbv zeta; unfold GodAIVerifier_init.
  - unfold _initialize_nova_interface, bind, lift, init_update, init_print. simpl.
    destruct (new_AIEmbeddedGoldInterface nova params) as [i|e]; simpl;
      [|destruct (exc_is_Exception e); simpl; intuition congruence].
    destruct (new_BlackwellQuantumSimulator nova) as [q|e]; simpl;
      [|destruct (exc_is_Exception e); simpl; intuition congruence].
    destruct (new_BlackwellMaterialAnalyzer nova) as [a|e]; simpl;
      [|destruct (exc_is_Exception e); simpl; intuition congruence].
    destruct (connect i) as [[|]|e]; simpl;
      [|intuition congruence|destruct (exc_is_Exception e); simpl; intuition congruence].
    destruct (quantum_initialize i) as [[|]|e]; simpl;
      [intuition congruence|intuition congruence|
       destruct (exc_is_Exception e); simpl; intuition congruence].
  - simpl. intuition congruence.
Qed.

(** X2: the constructor returns normally unless a library call raised
    something that does not derive from [Exception]; when it returns it has
    printed exactly one status line, and when it does not it has printed
    nothing. It never calls the analyzer or the quantum interface. *)
Theorem X2_constructor_prints_one_line :
  forall NOVA_AVAILABLE params w,
    let run := GodAIVerifier_init NOVA_AVAILABLE params w in
    match fst run with
    | Ok _ => exists line, stdout (snd (snd run)) = (stdout w ++ [line])%list
    | Raise e => exc_is_Exception e = false /\ stdout (snd (snd run)) = stdout w
    end
    /\ nova_calls (snd (snd run)) = nova_calls w.
Proof.
  intros [nova|] params w; cbv zeta; unfold GodAIVerifier_init.
  - unfold _initialize_nova_interface, bind, lift, init_update, init_print. simpl.
    destruct (new_AIEmbeddedGoldInterface nova params) as [i|e]; simpl;
      [|destruct (exc_is_Exception e) eqn:E; simpl; eauto].
    destruct (new_BlackwellQuantumSimulator nova) as [q|e]; simpl;
      [|destruct (exc_is_Exception e) eqn:E; simpl; eauto].
    destruct (new_BlackwellMaterialAnalyzer nova) as [a|e]; simpl;
      [|destruct (exc_is_Exception e) eqn:E; simpl; eauto].
    destruct (connect i) as [[|]|e]; simpl;
      [|eauto|destruct (exc_is_Exception e) eqn:E; simpl; eauto].
    destruct (quantum_initialize i) as [[|]|e]; simpl;
      [eauto|eauto|destruct (exc_is_Exception e) eqn:E; simpl; eauto].
  - simpl. eauto.
Qed.



(** *** What each phase writes *)

Lemma keeps_refl k s : keeps k s s.
Proof. reflexivity. Qed.

Lemma keeps_trans k a b c : keeps k a b -> keeps k b c -> keeps k a c.
Proof. unfold keeps. congruence. Qed.

Lemma set_result_keeps k k' v : k <> k' -> preserves (keeps k) (set_result k' v).
Proof.
  intros Hne s o s' H. inversion H. unfold keeps. simpl.
  now apply dict_get_set_other.
Qed.

(** Proves that a sequence of statements keeps the entry [k], given that
    [k] differs from every key the sequence assigns. *)
Ltac keeps_tac :=
  repeat
    match goal with
    | |- preserves _ (bind _ _) =>
        apply preserves_bind; [apply keeps_trans | | intros ?]
    | |- preserves _ (lift _) => apply preserves_lift; apply keeps_refl
    | |- preserves _ (ret _) => apply preserves_ret; apply keeps_refl
    | |- preserves _ (get_result _) => apply preserves_get_result; apply keeps_refl
    | |- preserves _ (set_result _ _) => apply set_result_keeps; assumption
    | |- preserves _ (call_analyze _ _) =>
        let H := fresh in intros ? ? ? H; inversion H; reflexivity
    | |- preserves _ (call_quantum_compute ?i _) =>
        let H := fresh in
        intros ? ? ? H; unfold call_quantum_compute in H;
        destruct i; inversion H; reflexivity
    | |- preserves _ history_append =>
        let H := fresh in
        let s := fresh in
        intros s ? ? H; unfold history_append in H;
        destruct (history s); inversion H; reflexivity
    | |- preserves _ (if ?b then _ else _) => destruct b
    | |- preserves _ (let _ := _ in _) => cbv zeta
    end.

Lemma ai_material_analysis_keeps k self mt p sensor :
  k <> "ai_analysis" -> k <> "ai_confidence" ->
  preserves (keeps k) (ai_material_analysis self mt p sensor).
Proof.
  intros H1 H2. unfold ai_material_analysis.
  destruct (material_analyzer self) as [ma|]; [destruct sensor as [d|] |]; keeps_tac.
Qed.

Lemma quantum_verification_keeps k self mt w p sensor :
  k <> "quantum_verification" -> k <> "quantum_confidence" ->
  preserves (keeps k) (quantum_verification self mt w p sensor).
Proof.
  intros H1 H2. unfold quantum_verification.
  destruct (quantum_simulator self) as [qs|]; keeps_tac.
Qed.

Lemma overall_decision_keeps k py_repr mt w p :
  ~ In k decision_keys ->
  preserves (keeps k) (overall_decision py_repr mt w p).
Proof.
  intros Hk.
  assert (k <> "confidence" /\ k <> "verified" /\ k <> "verification_id"
          /\ k <> "blockchain_ready") as (H1 & H2 & H3 & H4)
    by (simpl in Hk; intuition).
  unfold overall_decision. keeps_tac.
Qed.

Lemma history_append_keeps k : preserves (keeps k) history_append.
Proof. keeps_tac. Qed.

Lemma py_str_int_Raise n e :
  py_str_int n = Raise e -> e = int_limit_error /\ within_int_max_str_digits n = false.
Proof.
  unfold py_str_int. destruct (within_int_max_str_digits n); intros H;
    [discriminate H | injection H as <-; split; reflexivity].
Qed.

(** The decision can fail in two places: before its first assignment, and
    then the frame is as it was, or when the metal type is formatted for the
    identifier, after ['confidence'] and ['verified'] were assigned. *)
Lemma overall_decision_Raise py_repr mt w p s e s' ts :
  dict_get "timestamp" (verification_result s) = Some (VStr ts) ->
  overall_decision py_repr mt w p s = (Raise e, s') ->
  s' = s
  \/ exists c,
       (0.8 <? c)%float = true
       /\ py_str_int mt = Raise e
       /\ s' = mkFrame (dict_set "verified" (VBool true)
                          (dict_set "confidence" (VFloat c) (verification_result s)))
                       (history s) (world s).
Proof.
  intros Ht H. unfold overall_decision, bind, get_result, lift, set_result, ret in H.
  cbv zeta in H. simpl py_getitem in H.
  destruct (dict_get "ai_confidence" (verification_result s)) as [a|];
    [|inversion H; left; reflexivity].
  destruct (py_mul_float a 0.6) as [ap|x]; [|inversion H; left; reflexivity].
  destruct (dict_get "quantum_confidence" (verification_result s)) as [q|];
    [|inversion H; left; reflexivity].
  destruct (py_mul_float q 0.4) as [qp|x]; [|inversion H; left; reflexivity].
  simpl in H. rewrite dict_get_set_same in H. simpl in H.
  destruct (0.8 <? ap + qp)%float eqn:Hv; simpl in H; [|discriminate H].
  destruct (py_str_int mt) as [metal_type_text|x] eqn:Hmt.
  - simpl in H. rewrite !dict_get_set_other in H by discriminate.
    rewrite Ht in H. discriminate H.
  - injection H as <- <-. right. exists (ap + qp)%float. auto.
Qed.

(** *** Caught exceptions *)

(** A [try] block that raises while the history is a list has not minted
    an identifier; it has either not reached the decision's assignments, or
    it stopped on the metal type's text after a positive decision. *)
Lemma try_body_Raise_decision NUMPY_AVAILABLE py_repr self rng mt w p sd s e s'
    ts entries :
  history s = VList entries ->
  dict_get "timestamp" (verification_result s) = Some (VStr ts) ->
  try_body NUMPY_AVAILABLE py_repr self rng mt w p sd s = (Raise e, s') ->
  keeps "verification_id" s s'
  /\ keeps "blockchain_ready" s s'
  /\ ((keeps "verified" s s' /\ keeps "confidence" s s')
      \/ (dict_get "verified" (verification_result s') = Some (VBool true)
          /\ py_str_int mt = Raise e)).
Proof.
  intros Hh Ht H.
  rewrite try_body_phases in H.
  apply bind_Raise in H. destruct H as [H | ([] & s3 & H & Happ)].
  - assert (Hphases : forall k, In k decision_keys ->
               exists s2, keeps k s s2
                 /\ dict_get "timestamp" (verification_result s2) = Some (VStr ts)
                 /\ (s' = s2 \/ overall_decision py_repr mt w p s2 = (Raise e, s'))).
    { intros k Hk.
      assert (Hne : k <> "ai_analysis" /\ k <> "ai_confidence"
                    /\ k <> "quantum_verification" /\ k <> "quantum_confidence").
      { simpl in Hk. repeat split; intros ->; intuition discriminate. }
      destruct Hne as (N1 & N2 & N3 & N4).
      apply bind_Raise in H. destruct H as [H | ([] & s1 & Hai & H)].
      - exists s'. split; [exact (ai_material_analysis_keeps k _ _ _ _ N1 N2 _ _ _ H)|].
        split; [|left; reflexivity].
        rewrite <- Ht.
        apply (ai_material_analysis_keeps "timestamp" _ _ _ _) in H;
          [exact H | discriminate | discriminate].
      - assert (Ht1 : dict_get "timestamp" (verification_result s1) = Some (VStr ts)).
        { rewrite <- Ht.
          pose proof (ai_material_analysis_keeps "timestamp" self mt p
                        (generate_sensor_data NUMPY_AVAILABLE rng sd)) as Hk1.
          exact (Hk1 ltac:(discriminate) ltac:(discriminate) _ _ _ Hai). }
        pose proof (ai_material_analysis_keeps k _ _ _ _ N1 N2 _ _ _ Hai) as K1.
        apply bind_Raise in H. destruct H as [H | ([] & s2 & Hq & H)].
        + exists s'. split; [|split; [|left; reflexivity]].
          * apply keeps_trans with s1; [exact K1|].
            exact (quantum_verification_keeps k _ _ _ _ _ N3 N4 _ _ _ H).
          * rewrite <- Ht1.
            pose proof (quantum_verification_keeps "timestamp" self mt w p
                          (generate_sensor_data NUMPY_AVAILABLE rng sd)) as Hk2.
            exact (Hk2 ltac:(discriminate) ltac:(discriminate) _ _ _ H).
        + exists s2. split; [|split; [|right; exact H]].
          * apply keeps_trans with s1; [exact K1|].
            exact (quantum_verification_keeps k _ _ _ _ _ N3 N4 _ _ _ Hq).
          * rewrite <- Ht1.
            pose proof (quantum_verification_keeps "timestamp" self mt w p
                          (generate_sensor_data NUMPY_AVAILABLE rng sd)) as Hk2.
            exact (Hk2 ltac:(discriminate) ltac:(discriminate) _ _ _ Hq). }
    assert (Hcase : forall k, In k decision_keys ->
               keeps k s s'
               \/ exists s2 c,
                    keeps k s s2 /\ py_str_int mt = Raise e
                    /\ s' = mkFrame (dict_set "verified" (VBool true)
                                       (dict_set "confidence" (VFloat c)
                                          (verification_result s2)))
                                    (history s2) (world s2)).
    { intros k Hk. destruct (Hphases k Hk) as (s2 & K & Ht2 & [-> | Hdec]).
      - left. exact K.
      - destruct (overall_decision_Raise _ _ _ _ _ _ _ _ Ht2 Hdec)
          as [-> | (c & _ & Hmt & ->)]; [left; exact K | right].
        exists s2, c. auto. }
    split; [|split].
    + destruct (Hcase "verification_id") as [K | (s2 & c & K & _ & ->)];
        [simpl; auto | exact K |].
      unfold keeps in *. simpl. now rewrite !dict_get_set_other by discriminate.
    + destruct (Hcase "blockchain_ready") as [K | (s2 & c & K & _ & ->)];
        [simpl; auto | exact K |].
      unfold keeps in *. simpl. now rewrite !dict_get_set_other by discriminate.
    + destruct (Hcase "verified") as [K | (s2 & c & K & Hmt & ->)]; [simpl; auto | |].
      * destruct (Hcase "confidence") as [K' | (s2 & c & K' & Hmt & ->)];
          [simpl; auto | left; split; assumption |].
        right. split; [|exact Hmt]. simpl. apply dict_get_set_same.
      * right. split; [|exact Hmt]. simpl. apply dict_get_set_same.
  - apply phases_keep_history in H. unfold same_history in H.
    unfold history_append in Happ. rewrite H, Hh in Happ. discriminate Happ.
Qed.

(** X4: while the history is a list, a call that caught an exception
    returns a result without identifier that is not blockchain-ready.
    ['verified'] and ['confidence'] are the defaults [False] and 0.0, unless
    the exception is the refusal to format a metal type of more than 4300
    digits: that one is raised after a positive decision, and the result
    then says [True] under ['verified'] next to the ['error']. *)
Theorem X4_caught_exception_is_never_blockchain_ready :
  forall NUMPY_AVAILABLE py_repr self ts rng mt w p sd wd entries r self' wd',
    verification_history self = VList entries ->
    verify_metal_properties NUMPY_AVAILABLE py_repr self ts rng mt w p sd wd
    = (Ok r, self', wd') ->
    py_contains "error" r = true ->
    py_getitem r "verification_id" = Ok (VStr "")
    /\ py_getitem r "blockchain_ready" = Ok (VBool false)
    /\ ((py_getitem r "verified" = Ok (VBool false)
         /\ py_getitem r "confidence" = Ok (VFloat 0.0))
        \/ (py_getitem r "verified" = Ok (VBool true)
            /\ within_int_max_str_digits mt = false
            /\ py_getitem r "error" = Ok (VStr (exc_str int_limit_error)))).
Proof.
  intros NP py_repr self ts rng mt w p sd wd entries r self' wd' Hh H Herr.
  destruct (verify_returns _ _ _ _ _ _ _ _ _ _ _ _ _ H)
    as [(fr & Hbody & -> & _) | (e & fr & Hbody & _ & -> & _)].
  - apply try_body_Ok in Hbody.
    destruct Hbody as (analysis & ai & qv & q & qp & l & id & _ & Hr & _).
    rewrite Hr in Herr. discriminate Herr.
  - destruct (try_body_Raise_decision NP py_repr self rng mt w p sd
                (mkFrame (initial_result mt w p ts) (verification_history self) wd)
                e fr ts entries Hh eq_refl Hbody) as (Kid & Kbr & Kv).
    unfold keeps in Kid, Kbr, Kv. simpl in Kid, Kbr, Kv. simpl.
    rewrite !dict_get_set_other by discriminate. rewrite Kid, Kbr.
    split; [reflexivity|]. split; [reflexivity|].
    destruct Kv as [[Kv Kc] | [Kv Hmt]].
    + left. rewrite Kv, Kc. split; reflexivity.
    + right. rewrite Kv, dict_get_set_same.
      destruct (py_str_int_Raise _ _ Hmt) as [-> Hlim]. auto.
Qed.


(** *** Output *)

Lemma try_body_same_stdout NUMPY_AVAILABLE py_repr self rng mt w p sd :
  preserves same_stdout (try_body NUMPY_AVAILABLE py_repr self rng mt w p sd).
Proof.
  intros s o s' H. rewrite try_body_phases in H. revert s o s' H.
  apply preserves_bind.
  - unfold same_stdout. intros a b c H1 H2. congruence.
  - apply phases_preserve; unfold same_stdout.
    + reflexivity.
    + intros a b c H1 H2. congruence.
    + intros k v _ s o s' H. inversion H. reflexivity.
    + intros ma d _ s o s' H. inversion H. reflexivity.
    + intros i qi _ s o s' H. unfold call_quantum_compute in H.
      destruct i; inversion H; reflexivity.
  - intros _ s o s' H. unfold history_append in H. unfold same_stdout.
    destruct (history s); inversion H; reflexivity.
Qed.

(** X6: the method prints nothing when the [try] block returns, and exactly
    one line, ["Verification error: "] followed by the text recorded under
    ['error'], when an exception was caught. *)
Theorem X6_prints_only_the_caught_error :
  forall NUMPY_AVAILABLE py_repr self ts rng mt w p sd wd r self' wd',
    verify_metal_properties NUMPY_AVAILABLE py_repr self ts rng mt w p sd wd
    = (Ok r, self', wd') ->
    stdout wd'
    = (stdout wd
       ++ match py_getitem r "error" with
          | Ok (VStr text) => [("Verification error: " ++ text)%string]
          | _ => []
          end)%list.
Proof.
  intros NP py_repr self ts rng mt w p sd wd r self' wd' H.
  destruct (verify_returns _ _ _ _ _ _ _ _ _ _ _ _ _ H)
    as [(fr & Hbody & -> & _ & ->) | (e & fr & Hbody & _ & -> & _ & ->)].
  - pose proof (try_body_same_stdout _ _ _ _ _ _ _ _ _ _ _ Hbody) as Hout.
    unfold same_stdout in Hout. simpl in Hout.
    apply try_body_Ok in Hbody.
    destruct Hbody as (analysis & ai & qv & q & qp & l & id & _ & Hr & _).
    rewrite Hr. simpl. now rewrite app_nil_r.
  - pose proof (try_body_same_stdout _ _ _ _ _ _ _ _ _ _ _ Hbody) as Hout.
    unfold same_stdout in Hout. simpl in Hout.
    simpl. rewrite dict_get_set_same. simpl. now rewrite Hout.
Qed.

(** *** Failures of the analysis phase *)

(** X7: when the analyzer itself raises an [Exception], the method returns
    the initial dictionary with the exception's text under ['error']: the
    quantum interface is not called, nothing is verified and the history
    is left alone. *)
Theorem X7_analyzer_failure_stops_the_run :
  forall NUMPY_AVAILABLE py_repr self ma ts rng mt w p sd wd data e,
    material_analyzer self = Some ma ->
    generate_sensor_data NUMPY_AVAILABLE rng sd = Some data ->
    analyze_material_properties ma data = Raise e ->
    exc_is_Exception e = true ->
    verify_metal_properties NUMPY_AVAILABLE py_repr self ts rng mt w p sd wd
    = (Ok (VDict (dict_set "error" (VStr (exc_str e)) (initial_result mt w p ts))),
       set_verification_history (verification_history self) self,
       print_line ("Verification error: " ++ exc_str e)
         (log_call (AnalyzeCall data) wd)).
Proof.
  intros NP py_repr self ma ts rng mt w p sd wd data e Hma Hsd Ha He.
  unfold verify_metal_properties, try_body, ai_material_analysis. cbv zeta.
  rewrite Hsd, Hma. unfold bind at 1 2. unfold call_analyze. rewrite Ha, He.
  reflexivity.
Qed.

(** X8: an analysis without a ['density'] entry is recorded under
    ['ai_analysis'] and then stops the run with the [KeyError] text
    ['density'] (in quotes) under ['error']; the quantum interface is not
    called and the history is left alone. *)
Theorem X8_missing_density_is_reported :
  forall NUMPY_AVAILABLE py_repr self ma ts rng mt w p sd wd data d,
    material_analyzer self = Some ma ->
    generate_sensor_data NUMPY_AVAILABLE rng sd = Some data ->
    analyze_material_properties ma data = Ok (VDict d) ->
    dict_get "density" d = None ->
    verify_metal_properties NUMPY_AVAILABLE py_repr self ts rng mt w p sd wd
    = (Ok (VDict (dict_set "error" (VStr "'density'")
                    (dict_set "ai_analysis" (VDict d) (initial_result mt w p ts)))),
       set_verification_history (verification_history self) self,
       print_line "Verification error: 'density'" (log_call (AnalyzeCall data) wd)).
Proof.
  intros NP py_repr self ma ts rng mt w p sd wd data d Hma Hsd Ha Hd.
  unfold verify_metal_properties, try_body, ai_material_analysis. cbv zeta.
  rewrite Hsd, Hma. unfold bind, call_analyze, set_result, lift. rewrite Ha.
  unfold density_purity_match. simpl py_getitem. rewrite Hd. reflexivity.
Qed.

(** *** The analysis values *)

Lemma after_analysis_keeps k py_repr self mt w p sensor :
  k = "ai_analysis" \/ k = "ai_confidence" ->
  preserves (keeps k)
    (quantum_verification self mt w p sensor ;;
     overall_decision py_repr mt w p ;;
     history_append).
Proof.
  intros Hk.
  apply preserves_bind; [apply keeps_trans | | intros _].
  - apply quantum_verification_keeps; destruct Hk as [-> | ->]; discriminate.
  - apply preserves_bind; [apply keeps_trans | | intros _].
    + apply overall_decision_keeps. simpl. destruct Hk as [-> | ->]; intuition discriminate.
    + apply history_append_keeps.
Qed.

(** The analysis entries of whatever dictionary a call returns are those
    the first phase left. *)
Lemma returned_analysis_entries NUMPY_AVAILABLE py_repr self ts rng mt w p sd wd r self' wd'
    s1 k :
  k = "ai_analysis" \/ k = "ai_confidence" ->
  ai_material_analysis self mt p (generate_sensor_data NUMPY_AVAILABLE rng sd)
    (mkFrame (initial_result mt w p ts) (verification_history self) wd) = (Ok tt, s1) ->
  verify_metal_properties NUMPY_AVAILABLE py_repr self ts rng mt w p sd wd
  = (Ok r, self', wd') ->
  py_getitem r k
  = match dict_get k (verification_result s1) with
    | Some v => Ok v
    | None => Raise (KeyError k)
    end.
Proof.
  intros Hk Hai H.
  assert (Hkeep : forall o fr,
             try_body NUMPY_AVAILABLE py_repr self rng mt w p sd
               (mkFrame (initial_result mt w p ts) (verification_history self) wd)
             = (o, fr) ->
             dict_get k (verification_result fr) = dict_get k (verification_result s1)).
  { intros o fr Hb. unfold try_body in Hb. cbv zeta in Hb.
    unfold bind at 1 in Hb. rewrite Hai in Hb.
    exact (after_analysis_keeps k _ _ _ _ _ _ Hk _ _ _ Hb). }
  destruct (verify_returns _ _ _ _ _ _ _ _ _ _ _ _ _ H)
    as [(fr & Hbody & -> & _) | (e & fr & Hbody & _ & -> & _)]; simpl.
  - now rewrite (Hkeep _ _ Hbody).
  - rewrite dict_get_set_other by (destruct Hk as [-> | ->]; discriminate).
    now rewrite (Hkeep _ _ Hbody).
Qed.

(** X9: when the analyzer returns an analysis on which the two match
    checks can be computed and whose three efficiency readings are floats,
    every dictionary the call returns (also one with ['error'] from a later
    phase) has that analysis under ['ai_analysis'] and the arithmetic mean
    [(e + t + n) / 3.0] of the readings under ['ai_confidence']. *)
Theorem X9_ai_confidence_is_the_mean_of_three_readings :
  forall NUMPY_AVAILABLE py_repr self ma ts rng mt w p sd wd data a m e t n r self' wd',
    material_analyzer self = Some ma ->
    generate_sensor_data NUMPY_AVAILABLE rng sd = Some data ->
    analyze_material_properties ma data = Ok a ->
    density_purity_match a mt p = Ok m ->
    py_getitem a "ai_embedded_efficiency" = Ok (VFloat e) ->
    py_getitem a "thermal_stability" = Ok (VFloat t) ->
    py_getitem a "neural_interface_strength" = Ok (VFloat n) ->
    verify_metal_properties NUMPY_AVAILABLE py_repr self ts rng mt w p sd wd
    = (Ok r, self', wd') ->
    py_getitem r "ai_analysis" = Ok a
    /\ py_getitem r "ai_confidence" = Ok (VFloat ((e + t + n) / 3.0)).
Proof.
  intros NP py_repr self ma ts rng mt w p sd wd data a m e t n r self' wd'
         Hma Hsd Ha Hm He Ht Hn H.
  assert (Hai : ai_material_analysis self mt p (generate_sensor_data NP rng sd)
                  (mkFrame (initial_result mt w p ts) (verification_history self) wd)
                = (Ok tt,
                   mkFrame (dict_set "ai_confidence" (VFloat ((e + t + n) / 3.0))
                              (dict_set "ai_analysis" a (initial_result mt w p ts)))
                           (verification_history self)
                           (log_call (AnalyzeCall data) wd))).
  { unfold ai_material_analysis. rewrite Hsd, Hma.
    unfold bind, call_analyze, set_result, lift. rewrite Ha, Hm, He, Ht, Hn.
    reflexivity. }
  split.
  - rewrite (returned_analysis_entries _ _ _ _ _ _ _ _ _ _ _ _ _ _ "ai_analysis"
               (or_introl eq_refl) Hai H).
    reflexivity.
  - rewrite (returned_analysis_entries _ _ _ _ _ _ _ _ _ _ _ _ _ _ "ai_confidence"
               (or_intror eq_refl) Hai H).
    reflexivity.
Qed.

(** *** Without numpy *)

(** X10: where annotations are evaluated when the [def] statement runs,
    the fallback [NUMPY_AVAILABLE = False] is never in force. When numpy
    cannot be imported, the module does not load: unless the NOVA-BLOCKS
    import raised something of its own first, it stops with a [NameError] on
    [np], so there is no class to call. Whenever the module body returns,
    [NUMPY_AVAILABLE] is [True], and a call without sensor data draws 256
    values and makes every library call on them. *)
Theorem X10_without_numpy_the_module_does_not_load :
  forall nova_blocks numpy w0,
    (forall e,
        numpy = ImportFails e ->
        match fst (module_body false nova_blocks numpy w0) with
        | Ok _ => False
        | Raise x => nova_blocks = ImportRaises x \/ x = NameError "np"
        end)
    /\ (forall g w1,
          module_body false nova_blocks numpy w0 = (Ok g, w1) ->
          global_NUMPY_AVAILABLE g = true
          /\ forall py_repr self ts rng mt w p wd,
               calls_use (rng_random rng 256) self wd
                 (snd (verify_metal_properties (global_NUMPY_AVAILABLE g) py_repr self ts
                         rng mt w p None wd))).
Proof.
  intros nova_blocks numpy w0. split.
  - intros e ->. unfold module_body, import_nova_blocks, import_numpy, bind, lift, ret.
    destruct nova_blocks as [package|x|x]; simpl; auto.
  - intros g w1 H.
    assert (Hnp : global_NUMPY_AVAILABLE g = true).
    { unfold module_body, import_nova_blocks, import_numpy, class_GodAIVerifier, bind,
        lift, ret in H.
      destruct nova_blocks as [package|x|x], numpy as [[]|y|y]; simpl in H;
        try discriminate H; injection H as <- _; reflexivity. }
    split; [exact Hnp|]. intros py_repr self ts rng mt w p wd.
    apply verify_calls_use. rewrite Hnp. reflexivity.
Qed.

(** *** The identifier *)

Lemma hex_digit_is_hex n : is_hex_digit (SHA256.hex_digit n) = true.
Proof.
  destruct n as [|q|q]; try reflexivity.
  destruct q as [q|q|]; try reflexivity;
    destruct q as [q|q|]; try reflexivity;
    destruct q as [q|q|]; try reflexivity;
    destruct q as [q|q|]; reflexivity.
Qed.

Lemma hexdigest_length s : String.length (SHA256.hexdigest s) = 64%nat.
Proof. unfold SHA256.hexdigest, SHA256.hex_state, SHA256.hex_word. reflexivity. Qed.

Lemma hexdigest_is_hex s :
  forallb is_hex_digit (list_ascii_of_string (SHA256.hexdigest s)) = true.
Proof.
  unfold SHA256.hexdigest, SHA256.hex_state, SHA256.hex_word, SHA256.nibble.
  cbn [list_ascii_of_string forallb]. rewrite !hex_digit_is_hex. reflexivity.
Qed.

(** X11: the identifier of a verified result is a string of 64 lowercase
    hexadecimal digits. *)
Theorem X11_verification_id_is_64_hex_digits :
  forall NUMPY_AVAILABLE py_repr self ts rng mt w p sd wd r self' wd',
    verify_metal_properties NUMPY_AVAILABLE py_repr self ts rng mt w p sd wd
    = (Ok r, self', wd') ->
    py_contains "error" r = false ->
    py_getitem r "verified" = Ok (VBool true) ->
    exists id,
      py_getitem r "verification_id" = Ok (VStr id)
      /\ String.length id = 64%nat
      /\ forallb is_hex_digit (list_ascii_of_string id) = true.
Proof.
  intros NP py_repr self ts rng mt w p sd wd r self' wd' H Hne Hv.
  destruct (verify_completed_result _ _ _ _ _ _ _ _ _ _ _ _ _ H Hne)
    as (analysis & ai & qv & q & qp & entries & id & _ & -> & Hid & _ & _).
  simpl in Hv. injection Hv as Hv. rewrite Hv in Hid.
  destruct Hid as (metal_type_text & weight_text & purity_text & _ & _ & _ & ->).
  eexists. split; [reflexivity|].
  split; [apply hexdigest_length | apply hexdigest_is_hex].
Qed.

(** *** Successive calls and the log *)

(** X12: two calls in a row that complete without an exception leave the
    history with their two results appended in call order. *)
Theorem X12_completed_calls_append_in_order :
  forall NUMPY_AVAILABLE py_repr self entries
         ts1 rng1 mt1 w1 p1 sd1 wd r1 self1 wd1
         ts2 rng2 mt2 w2 p2 sd2 r2 self2 wd2,
    verification_history self = VList entries ->
    verify_metal_properties NUMPY_AVAILABLE py_repr self ts1 rng1 mt1 w1 p1 sd1 wd
    = (Ok r1, self1, wd1) ->
    py_contains "error" r1 = false ->
    verify_metal_properties NUMPY_AVAILABLE py_repr self1 ts2 rng2 mt2 w2 p2 sd2 wd1
    = (Ok r2, self2, wd2) ->
    py_contains "error" r2 = false ->
    get_verification_history self2 = VList (entries ++ [r1; r2]).
Proof.
  intros NP py_repr self entries ts1 rng1 mt1 w1 p1 sd1 wd r1 self1 wd1
         ts2 rng2 mt2 w2 p2 sd2 r2 self2 wd2 Hh H1 E1 H2 E2.
  destruct (completed_call_appends _ _ _ _ _ _ _ _ _ _ _ _ _ H1 E1) as (l1 & Hl1 & Hs1).
  destruct (completed_call_appends _ _ _ _ _ _ _ _ _ _ _ _ _ H2 E2) as (l2 & Hl2 & Hs2).
  unfold get_verification_history in *.
  rewrite Hh in Hl1. injection Hl1 as <-.
  rewrite Hs1 in Hl2. injection Hl2 as <-.
  rewrite Hs2, <- app_assoc. reflexivity.
Qed.




(** X15: a result returned without an exception has exactly twelve
    entries, the ten of the initial dictionary followed by
    ['ai_confidence'] and ['quantum_confidence'], in this order. *)
Theorem X15_completed_result_has_twelve_entries :
  forall NUMPY_AVAILABLE py_repr self ts rng mt w p sd wd r self' wd',
    verify_metal_properties NUMPY_AVAILABLE py_repr self ts rng mt w p sd wd
    = (Ok r, self', wd') ->
    py_contains "error" r = false ->
    py_keys r
    = [ "verified"; "confidence"; "metal_type"; "weight"; "purity";
        "verification_id"; "timestamp"; "ai_analysis"; "quantum_verification";
        "blockchain_ready"; "ai_confidence"; "quantum_confidence" ].
Proof.
  intros NP py_repr self ts rng mt w p sd wd r self' wd' H Hne.
  destruct (verify_completed_result _ _ _ _ _ _ _ _ _ _ _ _ _ H Hne)
    as (analysis & ai & qv & q & qp & entries & id & _ & -> & _ & _ & _).
  reflexivity.
Qed.

(** *** Not-a-number readings *)

Lemma SFcompare_refl_not_nan x : x <> S754_nan -> SFcompare x x = Some Eq.
Proof.
  destruct x as [s|s| |s m e]; intros H; simpl.
  - reflexivity.
  - destruct s; reflexivity.
  - now elim H.
  - rewrite Z.compare_refl, Pos.compare_cont_refl. destruct s; reflexivity.
Qed.

Lemma is_nan_Prim2SF x : PrimFloat.is_nan x = true -> Prim2SF x = S754_nan.
Proof.
  unfold PrimFloat.is_nan. rewrite eqb_spec. unfold SFeqb. intros H.
  destruct (Prim2SF x) as [s|s| |s m e] eqn:E; try reflexivity;
    rewrite SFcompare_refl_not_nan in H by discriminate; discriminate H.
Qed.

Lemma Prim2SF_is_nan x : Prim2SF x = S754_nan -> PrimFloat.is_nan x = true.
Proof.
  intros H. unfold PrimFloat.is_nan. rewrite eqb_spec, H. reflexivity.
Qed.

Lemma nan_mul x y : PrimFloat.is_nan x = true -> PrimFloat.is_nan (x * y) = true.
Proof.
  intros H. apply Prim2SF_is_nan. rewrite mul_spec, (is_nan_Prim2SF _ H). reflexivity.
Qed.

Lemma nan_add_r x y : PrimFloat.is_nan y = true -> PrimFloat.is_nan (x + y) = true.
Proof.
  intros H. apply Prim2SF_is_nan. rewrite add_spec, (is_nan_Prim2SF _ H).
  unfold SF64add, SFadd. destruct (Prim2SF x); reflexivity.
Qed.

Lemma ltb_nan x y : PrimFloat.is_nan y = true -> (x <? y)%float = false.
Proof.
  intros H. rewrite ltb_spec, (is_nan_Prim2SF _ H). unfold SFltb.
  destruct (Prim2SF x); reflexivity.
Qed.

(** X16: a quantum stability that is not a number never verifies: when
    the ['quantum_confidence'] of a completed result is a NaN, the overall
    confidence is a NaN, and the result is not verified, has no identifier
    and is not blockchain-ready. *)
Theorem X16_nan_stability_is_never_verified :
  forall NUMPY_AVAILABLE py_repr self ts rng mt w p sd wd r self' wd' q,
    verify_metal_properties NUMPY_AVAILABLE py_repr self ts rng mt w p sd wd
    = (Ok r, self', wd') ->
    py_contains "error" r = false ->
    py_getitem r "quantum_confidence" = Ok (VFloat q) ->
    PrimFloat.is_nan q = true ->
    (exists c, py_getitem r "confidence" = Ok (VFloat c) /\ PrimFloat.is_nan c = true)
    /\ py_getitem r "verified" = Ok (VBool false)
    /\ py_getitem r "verification_id" = Ok (VStr "")
    /\ py_getitem r "blockchain_ready" = Ok (VBool false).
Proof.
  intros NP py_repr self ts rng mt w p sd wd r self' wd' q H Hne Hq Hnan.
  destruct (verify_completed_result _ _ _ _ _ _ _ _ _ _ _ _ _ H Hne)
    as (analysis & ai & qv & q' & qp & entries & id & Hqp & -> & Hid & _ & _).
  simpl in Hq. injection Hq as ->. simpl in Hqp. injection Hqp as <-.
  assert (Hc : PrimFloat.is_nan (ai * 0.6 + q * 0.4) = true)
    by (apply nan_add_r, nan_mul, Hnan).
  unfold minted_id in Hid. rewrite (ltb_nan _ _ Hc) in Hid. subst id.
  simpl. rewrite (ltb_nan _ _ Hc). repeat split; try reflexivity.
  eexists. split; [reflexivity | exact Hc].
Qed.

(** *** Without NOVA-BLOCKS *)


(** X18: with the mock analysis (no analyzer) and a quantum interface that
    reports a float stability [x], the decision rests on [x] alone: the
    result is verified exactly when 0.8 < 0.85 * 0.6 + x * 0.4. *)
Theorem X18_mock_analysis_leaves_the_decision_to_the_stability :
  forall NUMPY_AVAILABLE py_repr self qs iface ts rng mt w p sd wd qr res x,
    material_analyzer self = None ->
    quantum_simulator self = Some qs ->
    interface self = Some iface ->
    (forall quantum_input, quantum_compute iface quantum_input = Ok qr) ->
    py_getitem qr "result" = Ok res ->
    py_getitem res "stability" = Ok (VFloat x) ->
    verified_field
      (verify_metal_properties NUMPY_AVAILABLE py_repr self ts rng mt w p sd wd)
    = Ok (VBool (0.8 <? 0.85 * 0.6 + x * 0.4)%float).
Proof.
  intros NP py_repr self qs iface ts rng mt w p sd wd qr res x
         Hma Hqs Hif Hqc Hres Hst.
  unfold verified_field, verify_metal_properties, try_body, ai_material_analysis,
    quantum_verification.
  cbv zeta. rewrite Hma, Hqs, Hif.
  unfold call_quantum_compute, bind, set_result, lift.
  rewrite Hqc, Hres, Hst.
  unfold overall_decision, bind, set_result, get_result, lift, ret.
  cbn -[SHA256.hexdigest history_append PrimFloat.mul PrimFloat.add].
  match goal with |- context [(0.8 <? ?c)%float] => destruct (0.8 <? c)%float end;
    cbn -[SHA256.hexdigest history_append];
    [destruct (py_str_int mt) as [metal_type_text|e] eqn:Hmt;
     cbn -[SHA256.hexdigest history_append];
     [|destruct (py_str_int_Raise _ _ Hmt) as [-> _]; reflexivity] |];
    split_append; reflexivity.
Qed.

(** *** A stability that is not a usable number *)

Lemma py_mul_float_Raise v y e : py_mul_float v y = Raise e -> exc_is_Exception e = true.
Proof.
  destruct v; simpl; intros H; try (injection H as <-; reflexivity); try discriminate H.
  unfold float_of_int in H.
  destruct (PrimFloat.is_infinity _); simpl in H;
    [injection H as <-; reflexivity | discriminate H].
Qed.

(** X19: with the mock analysis, a stability the weighting cannot multiply
    (a string, [None], an integer too large for a float) is recorded under
    ['quantum_confidence'] and then stops the run: the [TypeError] or
    [OverflowError] text is returned under ['error'], the result is not
    verified and the history is left alone. *)
Theorem X19_unusable_stability_is_reported :
  forall NUMPY_AVAILABLE py_repr self qs iface ts rng mt w p sd wd qr res q e,
    material_analyzer self = None ->
    quantum_simulator self = Some qs ->
    interface self = Some iface ->
    (forall quantum_input, quantum_compute iface quantum_input = Ok qr) ->
    py_getitem qr "result" = Ok res ->
    py_getitem res "stability" = Ok q ->
    py_mul_float q 0.4 = Raise e ->
    exists r,
      fst (fst (verify_metal_properties NUMPY_AVAILABLE py_repr self ts rng mt w p sd wd))
      = Ok r
      /\ py_getitem r "error" = Ok (VStr (exc_str e))
      /\ py_getitem r "quantum_confidence" = Ok q
      /\ py_getitem r "verified" = Ok (VBool false)
      /\ py_getitem r "blockchain_ready" = Ok (VBool false)
      /\ verification_history
           (snd (fst (verify_metal_properties NUMPY_AVAILABLE py_repr self ts rng
                        mt w p sd wd)))
         = verification_history self.
Proof.
  intros NP py_repr self qs iface ts rng mt w p sd wd qr res q e
         Hma Hqs Hif Hqc Hres Hst Hmul.
  pose proof (py_mul_float_Raise _ _ _ Hmul) as He.
  unfold verify_metal_properties, try_body, ai_material_analysis, quantum_verification.
  cbv zeta. rewrite Hma, Hqs, Hif.
  unfold call_quantum_compute, bind, set_result, lift.
  rewrite Hqc, Hres, Hst.
  unfold overall_decision, bind, set_result, get_result, lift, ret.
  cbn -[SHA256.hexdigest history_append PrimFloat.mul PrimFloat.add].
  rewrite Hmul, He. simpl.
  eexists. split; [reflexivity|]. repeat split; reflexivity.
Qed.

(** ** Sample runs *)

Example sha256_empty :
  SHA256.hexdigest "" = "e3b0c44298fc1c149afbf4c8996fb92427ae41e4649b934ca495991b7852b855".
Proof. vm_compute. reflexivity. Qed.

Example sha256_abc :
  SHA256.hexdigest "abc" = "ba7816bf8f01cfea414140de5dae2223b00361a396177a9cb410ff61f20015ad".
Proof. vm_compute. reflexivity. Qed.

Example sha256_two_blocks :
  SHA256.hexdigest "abcdbcdecdefdefgefghfghighijhijkijkljklmklmnlmnomnopnopq"
  = "248d6a61d20638b8e5c026930c3e6039a33ce45964ff2167f6ecedd419db06c1".
Proof. vm_compute. reflexivity. Qed.

(** The identifier of the sample call is the digest of
    ["1100.00.9992026-11-03T12:00:00.000001"]. *)
Example sample_verification_id :
  py_getitem sample_result "verification_id"
  = Ok (VStr "93a1ca9a5b60af70075ce02305b127d128e5bee4810972055c36363208792e7a").
Proof. vm_compute. reflexivity. Qed.

(** The library calls of the sample call on a NOVA-BLOCKS verifier: the
    analyzer on the sensor data, then the quantum interface on its list. *)
Example nova_run_calls :
  nova_calls (snd (nova_run (fun _ => Ok gold_analysis)))
  = [ AnalyzeCall sample_data;
      QuantumCall (VDict [ ("state", tolist sample_data); ("metal_type", VInt 1);
                           ("weight", VFloat 100.0); ("purity", VFloat 0.999) ]) ].
Proof. vm_compute. reflexivity. Qed.

Lemma sample_run_returns :
  sample_run = (Ok sample_result, sample_verifier_after, snd sample_run).
Proof. vm_compute. reflexivity. Qed.

Lemma C1_witness :
  exists ai q c,
    py_getitem sample_result "ai_confidence" = Ok ai
    /\ py_getitem sample_result "quantum_confidence" = Ok q
    /\ weighted_combination ai q = Ok c
    /\ py_getitem sample_result "confidence" = Ok (VFloat c).
Proof.
  apply (C1_confidence_is_weighted_combination true sample_repr mock_verifier
           sample_timestamp sample_rng 1 100.0 0.999 None empty_world
           sample_result sample_verifier_after (snd sample_run)).
  - vm_compute. reflexivity.
  - vm_compute. reflexivity.
Defined.

Lemma C2_witness :
  exists ai q c,
    py_getitem sample_result "ai_confidence" = Ok ai
    /\ py_getitem sample_result "quantum_confidence" = Ok q
    /\ weighted_combination ai q = Ok c
    /\ py_getitem sample_result "confidence" = Ok (VFloat c)
    /\ py_getitem sample_result "verified" = Ok (VBool (0.8 <? c)%float).
Proof.
  apply (C2_verified_iff_confidence_above_threshold true sample_repr mock_verifier
           sample_timestamp sample_rng 1 100.0 0.999 None empty_world
           sample_result sample_verifier_after (snd sample_run)).
  - vm_compute. reflexivity.
  - vm_compute. reflexivity.
Defined.

Lemma C3_witness :
  exists verified timestamp,
    py_getitem sample_result "verified" = Ok (VBool verified)
    /\ py_getitem sample_result "timestamp" = Ok (VStr timestamp)
    /\ if verified then
         exists metal_type_text weight_text purity_text,
           py_str sample_repr (VInt 1) = Ok metal_type_text
           /\ py_str sample_repr (VFloat 100.0) = Ok weight_text
           /\ py_str sample_repr (VFloat 0.999) = Ok purity_text
           /\ py_getitem sample_result "verification_id"
              = Ok (VStr (SHA256.hexdigest
                            (metal_type_text ++ weight_text ++ purity_text
                             ++ timestamp)))
       else py_getitem sample_result "verification_id" = Ok (VStr "").
Proof.
  apply (C3_verification_id_is_sha256_of_inputs true sample_repr mock_verifier
           sample_timestamp sample_rng 1 100.0 0.999 None empty_world
           sample_result sample_verifier_after (snd sample_run)).
  - vm_compute. reflexivity.
  - vm_compute. reflexivity.
Defined.

(** C4 fails as stated: Ctrl-C while the analyzer runs is not an
    [Exception], so [except Exception] lets it leave the method. *)
Lemma C4_counterexample :
  fst (try_body true sample_repr (nova_verifier (fun _ => Raise KeyboardInterrupt))
         sample_rng 1 100.0 0.999 (Some sample_data)
         (nova_frame (fun _ => Raise KeyboardInterrupt)))
  = Raise KeyboardInterrupt
  /\ fst (fst (nova_run (fun _ => Raise KeyboardInterrupt))) = Raise KeyboardInterrupt.
Proof. split; vm_compute; reflexivity. Qed.

Lemma C4_witness :
  exists r,
    nova_run (fun _ => Ok unread_analysis)
    = (Ok r,
       set_verification_history (history unread_frame)
         (nova_verifier (fun _ => Ok unread_analysis)),
       print_line ("Verification error: " ++ exc_str unread_error) (world unread_frame))
    /\ r = VDict (dict_set "error" (VStr (exc_str unread_error))
                    (verification_result unread_frame))
    /\ py_getitem r "error" = Ok (VStr (exc_str unread_error)).
Proof.
  apply (C4_exception_caught_when_it_derives_from_Exception true sample_repr
           (nova_verifier (fun _ => Ok unread_analysis)) sample_timestamp sample_rng
           1 100.0 0.999 (Some sample_data) empty_world unread_error unread_frame).
  vm_compute. reflexivity.
Defined.

(** C5 fails as stated: in binary64 arithmetic 0.85 * 0.6 + 0.9 * 0.4 is
    0.8700000000000001, the double next above 0.87. *)
Lemma C5_counterexample :
  material_analyzer mock_verifier = None
  /\ quantum_simulator mock_verifier = None
  /\ fst (fst sample_run) = Ok sample_result
  /\ py_contains "error" sample_result = false
  /\ py_getitem sample_result "confidence" = Ok (VFloat 0.8700000000000001)
  /\ (0.8700000000000001 =? 0.87)%float = false
  /\ (0.87 <? 0.8700000000000001)%float = true.
Proof. repeat split; vm_compute; reflexivity. Qed.

Lemma C5_witness :
  py_getitem sample_result "ai_confidence" = Ok (VFloat 0.85)
  /\ py_getitem sample_result "quantum_confidence" = Ok (VFloat 0.9)
  /\ py_getitem sample_result "confidence" = Ok (VFloat 0.8700000000000001)
  /\ py_getitem sample_result "verified" = Ok (VBool true)
  /\ py_getitem sample_result "blockchain_ready" = Ok (VBool true).
Proof.
  apply (C5_mock_values_always_verify true sample_repr mock_verifier
           sample_timestamp sample_rng 1 100.0 0.999 None empty_world
           sample_result sample_verifier_after (snd sample_run)).
  - reflexivity.
  - reflexivity.
  - vm_compute. reflexivity.
  - vm_compute. reflexivity.
Defined.

(** C6 fails as stated: the two analyses differ only in ['density'], 19.3
    in one and [None] in the other; the first call is verified, the second
    raises a [TypeError] while computing [density_match] and is not. *)
Lemma C6_counterexample :
  py_getitem gold_analysis "density" = Ok (VFloat 19.3)
  /\ py_getitem unread_analysis "density" = Ok VNone
  /\ py_getitem gold_analysis "purity" = py_getitem unread_analysis "purity"
  /\ py_getitem gold_analysis "ai_embedded_efficiency"
     = py_getitem unread_analysis "ai_embedded_efficiency"
  /\ py_getitem gold_analysis "thermal_stability"
     = py_getitem unread_analysis "thermal_stability"
  /\ py_getitem gold_analysis "neural_interface_strength"
     = py_getitem unread_analysis "neural_interface_strength"
  /\ verified_field (nova_run (fun _ => Ok gold_analysis)) = Ok (VBool true)
  /\ verified_field (nova_run (fun _ => Ok unread_analysis)) = Ok (VBool false).
Proof. repeat split; vm_compute; reflexivity. Qed.

Lemma C6_witness :
  verified_field (nova_run (fun _ => Ok gold_analysis))
  = verified_field (nova_run (fun _ => Ok silver_like_analysis)).
Proof.
  apply (C6_verified_ignores_density_and_purity true sample_repr
           (nova_verifier (fun _ => Ok gold_analysis))
           (nova_verifier (fun _ => Ok silver_like_analysis))
           {| analyze_material_properties := fun _ => Ok gold_analysis |}
           {| analyze_material_properties := fun _ => Ok silver_like_analysis |}
           sample_timestamp sample_timestamp sample_rng 1 100.0 0.999
           (Some sample_data) empty_world empty_world sample_data
           gold_analysis silver_like_analysis (true, true) (false, true));
    vm_compute; reflexivity.
Defined.

Lemma C7_witness :
  exists entries,
    verification_history mock_verifier = VList entries
    /\ get_verification_history sample_verifier_after = VList (entries ++ [sample_result]).
Proof.
  exact (C7_history_appended_once_or_unchanged true sample_repr mock_verifier
           sample_timestamp sample_rng 1 100.0 0.999 None empty_world
           sample_result sample_verifier_after (snd sample_run) sample_run_returns).
Defined.



Lemma C10_witness :
  (py_getitem sample_result "metal_type" = Ok (VInt 1)
   /\ py_getitem sample_result "weight" = Ok (VFloat 100.0)
   /\ py_getitem sample_result "purity" = Ok (VFloat 0.999))
  /\ exists verified id,
      py_getitem sample_result "verified" = Ok (VBool verified)
      /\ py_getitem sample_result "blockchain_ready" = Ok (VBool verified)
      /\ py_getitem sample_result "verification_id" = Ok (VStr id)
      /\ (id <> "" <-> verified = true).
Proof.
  destruct (C10_result_invariants true sample_repr mock_verifier
              sample_timestamp sample_rng 1 100.0 0.999 None empty_world
              sample_result sample_verifier_after (snd sample_run))
    as [Hargs Hdone].
  - vm_compute. reflexivity.
  - split; [exact Hargs | apply Hdone; vm_compute; reflexivity].
Defined.


Lemma X4_witness :
  py_getitem (result_of long_metal_type_run) "verification_id" = Ok (VStr "")
  /\ py_getitem (result_of long_metal_type_run) "blockchain_ready" = Ok (VBool false)
  /\ ((py_getitem (result_of long_metal_type_run) "verified" = Ok (VBool false)
       /\ py_getitem (result_of long_metal_type_run) "confidence" = Ok (VFloat 0.0))
      \/ (py_getitem (result_of long_metal_type_run) "verified" = Ok (VBool true)
          /\ within_int_max_str_digits long_metal_type = false
          /\ py_getitem (result_of long_metal_type_run) "error"
             = Ok (VStr (exc_str int_limit_error)))).
Proof.
  apply (X4_caught_exception_is_never_blockchain_ready true sample_repr mock_verifier
           sample_timestamp sample_rng long_metal_type 100.0 0.999 None empty_world []
           (result_of long_metal_type_run) (snd (fst long_metal_type_run))
           (snd long_metal_type_run));
    vm_compute; reflexivity.
Defined.


Lemma X6_witness :
  stdout (snd (nova_run (fun _ => Ok unread_analysis)))
  = [ "Verification error: unsupported operand type(s) for -: 'NoneType' and 'float'" ].
Proof.
  apply (X6_prints_only_the_caught_error true sample_repr
           (nova_verifier (fun _ => Ok unread_analysis)) sample_timestamp sample_rng
           1 100.0 0.999 (Some sample_data) empty_world
           (result_of (nova_run (fun _ => Ok unread_analysis)))
           (snd (fst (nova_run (fun _ => Ok unread_analysis))))
           (snd (nova_run (fun _ => Ok unread_analysis)))).
  vm_compute. reflexivity.
Defined.

Lemma X7_witness :
  nova_run (fun _ => Raise sensor_offline)
  = (Ok (VDict (dict_set "error" (VStr "sensor offline")
                  (initial_result 1 100.0 0.999 sample_timestamp))),
     set_verification_history
       (verification_history (nova_verifier (fun _ => Raise sensor_offline)))
       (nova_verifier (fun _ => Raise sensor_offline)),
     print_line "Verification error: sensor offline"
       (log_call (AnalyzeCall sample_data) empty_world)).
Proof.
  apply (X7_analyzer_failure_stops_the_run true sample_repr
           (nova_verifier (fun _ => Raise sensor_offline))
           {| analyze_material_properties := fun _ => Raise sensor_offline |}
           sample_timestamp sample_rng 1 100.0 0.999 (Some sample_data) empty_world
           sample_data sensor_offline);
    reflexivity.
Defined.

Lemma X8_witness :
  nova_run (fun _ => Ok no_density_analysis)
  = (Ok (VDict (dict_set "error" (VStr "'density'")
                  (dict_set "ai_analysis" no_density_analysis
                     (initial_result 1 100.0 0.999 sample_timestamp)))),
     set_verification_history
       (verification_history (nova_verifier (fun _ => Ok no_density_analysis)))
       (nova_verifier (fun _ => Ok no_density_analysis)),
     print_line "Verification error: 'density'"
       (log_call (AnalyzeCall sample_data) empty_world)).
Proof.
  apply (X8_missing_density_is_reported true sample_repr
           (nova_verifier (fun _ => Ok no_density_analysis))
           {| analyze_material_properties := fun _ => Ok no_density_analysis |}
           sample_timestamp sample_rng 1 100.0 0.999 (Some sample_data) empty_world
           sample_data);
    reflexivity.
Defined.

Lemma X9_witness :
  py_getitem (result_of (nova_run (fun _ => Ok gold_analysis))) "ai_analysis"
  = Ok gold_analysis
  /\ py_getitem (result_of (nova_run (fun _ => Ok gold_analysis))) "ai_confidence"
     = Ok (VFloat ((0.9 + 0.9 + 0.9) / 3.0)).
Proof.
  apply (X9_ai_confidence_is_the_mean_of_three_readings true sample_repr
           (nova_verifier (fun _ => Ok gold_analysis))
           {| analyze_material_properties := fun _ => Ok gold_analysis |}
           sample_timestamp sample_rng 1 100.0 0.999 (Some sample_data) empty_world
           sample_data gold_analysis (true, true) 0.9%float 0.9%float 0.9%float
           (result_of (nova_run (fun _ => Ok gold_analysis)))
           (snd (fst (nova_run (fun _ => Ok gold_analysis))))
           (snd (nova_run (fun _ => Ok gold_analysis))));
    vm_compute; reflexivity.
Defined.

Lemma X11_witness :
  exists id,
    py_getitem sample_result "verification_id" = Ok (VStr id)
    /\ String.length id = 64%nat
    /\ forallb is_hex_digit (list_ascii_of_string id) = true.
Proof.
  apply (X11_verification_id_is_64_hex_digits true sample_repr mock_verifier
           sample_timestamp sample_rng 1 100.0 0.999 None empty_world
           sample_result sample_verifier_after (snd sample_run));
    vm_compute; reflexivity.
Defined.

Lemma X12_witness :
  get_verification_history (snd (fst second_run))
  = VList ([] ++ [sample_result; second_result]).
Proof.
  apply (X12_completed_calls_append_in_order true sample_repr mock_verifier []
           sample_timestamp sample_rng 1 100.0 0.999 None empty_world
           sample_result sample_verifier_after (snd sample_run)
           sample_timestamp sample_rng 2 100.0 0.999 None
           second_result (snd (fst second_run)) (snd second_run));
    vm_compute; reflexivity.
Defined.



Lemma X15_witness :
  py_keys sample_result
  = [ "verified"; "confidence"; "metal_type"; "weight"; "purity";
      "verification_id"; "timestamp"; "ai_analysis"; "quantum_verification";
      "blockchain_ready"; "ai_confidence"; "quantum_confidence" ].
Proof.
  apply (X15_completed_result_has_twelve_entries true sample_repr mock_verifier
           sample_timestamp sample_rng 1 100.0 0.999 None empty_world
           sample_result sample_verifier_after (snd sample_run));
    vm_compute; reflexivity.
Defined.

Lemma X16_witness :
  (exists c,
      py_getitem (result_of (quantum_only_run (stability_answer (VFloat nan))))
        "confidence" = Ok (VFloat c)
      /\ PrimFloat.is_nan c = true)
  /\ py_getitem (result_of (quantum_only_run (stability_answer (VFloat nan)))) "verified"
     = Ok (VBool false)
  /\ py_getitem (result_of (quantum_only_run (stability_answer (VFloat nan))))
       "verification_id" = Ok (VStr "")
  /\ py_getitem (result_of (quantum_only_run (stability_answer (VFloat nan))))
       "blockchain_ready" = Ok (VBool false).
Proof.
  apply (X16_nan_stability_is_never_verified true sample_repr
           (quantum_only_verifier (stability_answer (VFloat nan)))
           sample_timestamp sample_rng 1 100.0 0.999 None empty_world
           (result_of (quantum_only_run (stability_answer (VFloat nan))))
           (snd (fst (quantum_only_run (stability_answer (VFloat nan)))))
           (snd (quantum_only_run (stability_answer (VFloat nan)))) nan);
    vm_compute; reflexivity.
Defined.

Lemma X18_witness :
  verified_field (quantum_only_run (stability_answer (VFloat 0.5)))
  = Ok (VBool (0.8 <? 0.85 * 0.6 + 0.5 * 0.4)%float).
Proof.
  apply (X18_mock_analysis_leaves_the_decision_to_the_stability true sample_repr
           (quantum_only_verifier (stability_answer (VFloat 0.5))) QuantumSimulator
           {| connect := Ok true;
              quantum_initialize := Ok true;
              quantum_compute := fun _ => Ok (stability_answer (VFloat 0.5)) |}
           sample_timestamp sample_rng 1 100.0 0.999 None empty_world
           (stability_answer (VFloat 0.5)) (VDict [ ("stability", VFloat 0.5) ]) 0.5%float);
    reflexivity.
Defined.

Lemma X19_witness :
  exists r,
    fst (fst (quantum_only_run (stability_answer (VStr "high")))) = Ok r
    /\ py_getitem r "error"
       = Ok (VStr "can't multiply sequence by non-int of type 'float'")
    /\ py_getitem r "quantum_confidence" = Ok (VStr "high")
    /\ py_getitem r "verified" = Ok (VBool false)
    /\ py_getitem r "blockchain_ready" = Ok (VBool false)
    /\ verification_history (snd (fst (quantum_only_run (stability_answer (VStr "high")))))
       = verification_history (quantum_only_verifier (stability_answer (VStr "high"))).
Proof.
  apply (X19_unusable_stability_is_reported true sample_repr
           (quantum_only_verifier (stability_answer (VStr "high"))) QuantumSimulator
           {| connect := Ok true;
              quantum_initialize := Ok true;
              quantum_compute := fun _ => Ok (stability_answer (VStr "high")) |}
           sample_timestamp sample_rng 1 100.0 0.999 None empty_world
           (stability_answer (VStr "high")) (VDict [ ("stability", VStr "high") ])
           (VStr "high")
           (TypeError "can't multiply sequence by non-int of type 'float'"));
    reflexivity.
Defined.
